(** * Carbon footprint analyzer: sampling, power estimation and summary

    A shallow embedding of [naima.py]: the power estimator
    ([estimate_power]), the collector loop ([collector_thread]), the two
    sample stores and their query ([fetch_samples]) and the two JSON
    handlers ([api_data], [api_summary]).

    Numbers.  The program computes with Python floats.  They are embedded
    as exact rationals ([Q]): every arithmetic operation of the source is
    the corresponding exact operation, comparisons are the exact order.
    Decimal literals stand for the decimal they spell ([0.08] is 8/100).
    Results are stated up to [Qeq] where a normal form is not forced.

    Time.  [time.time()] is a rational number of seconds.  A [datetime]
    is a rational number of seconds counted from 0001-01-01T00:00:00; the
    text produced by [isoformat(timespec="seconds")] is fixed-width, so
    its order as text is the order of the whole seconds it spells, and it
    is embedded as that whole number of seconds. *)

From Stdlib Require Import QArith ZArith List String Bool Lia Lqa.
From Stdlib Require Import Qround Qabs Sorted Permutation.
Import ListNotations.

Local Open Scope Q_scope.

(** ** Python values *)

(** Strict comparison of two numbers, as a boolean. *)
Definition Qltb (x y : Q) : bool := negb (Qle_bool y x).

(** Truthiness of a number: [0] and [0.0] are false. *)
Definition truthy (x : Q) : bool := negb (Qeq_bool x 0).

(** [x or 0] for a number that may be [None]. *)
Definition or_0 (x : option Q) : Q :=
  match x with
  | Some v => if truthy v then v else 0
  | None => 0
  end.

(** ** Constants *)

Definition SAMPLE_INTERVAL_SECONDS : Q := 2.
Definition BATTERY_WH_CAPACITY : Q := 50.
Definition DEFAULT_BRIGHTNESS : Q := 60.
Definition CPU_POWER_COEFF : Q := 25 # 100.
Definition BRIGHTNESS_POWER_COEFF : Q := 8 # 100.
Definition BASE_POWER_W : Q := 8.
Definition COST_PER_KWH_BDT : Q := 8.
Definition CO2_PER_KWH_KG : Q := 7 # 10.

(** ** Sensors *)

(** What [psutil.sensors_battery()] returns when there is a battery: the
    fields of the named tuple that the program reads.  [power_plugged]
    is [True], [False], or [None] when it cannot be determined. *)
Record sbattery : Type := mk_sbattery {
  percent : Q;
  power_plugged : option bool
}.

(** Truthiness of [batt.power_plugged]. *)
Definition plugged (b : sbattery) : bool :=
  match power_plugged b with
  | Some true => true
  | _ => false
  end.

(** [get_brightness]: [available] is [BRIGHTNESS_AVAILABLE]; [reading] is
    the first value of [sbc.get_brightness()], or [None] when the call or
    the conversion raises. *)
Definition get_brightness (available : bool) (reading : option Q) : Q :=
  if available then
    match reading with
    | Some v => v
    | None => DEFAULT_BRIGHTNESS
    end
  else DEFAULT_BRIGHTNESS.

(** ** Power estimation *)

Section EstimatePower.

(** The value read by [now = time.time()] on entry. *)
Variable now : Q.
Variables (cpu_util : Q) (brightness : option Q).
Variables (batt : option sbattery) (last_batt_percent last_ts : option Q).

Definition power_linear : Q :=
  BASE_POWER_W + CPU_POWER_COEFF * cpu_util
  + BRIGHTNESS_POWER_COEFF * or_0 brightness.

(** The local [battery_based_power] when the function reaches its
    [return]: [None] unless every guard was passed. *)
Definition battery_based_power : option Q :=
  match batt with
  | Some b =>
      if negb (plugged b) then
        match last_batt_percent, last_ts with
        | Some lbp, Some lts =>
            if Qltb (percent b) lbp then
              let dt_h := (now - lts) / 3600 in
              if Qltb 0 dt_h then
                let d_percent := lbp - percent b in
                let energy_used_Wh := BATTERY_WH_CAPACITY * (d_percent / 100) in
                Some (energy_used_Wh / dt_h)
              else None
            else None
        | _, _ => None
        end
      else None
  | None => None
  end.

Definition estimate_power : Q :=
  match battery_based_power with
  | Some p => p
  | None => power_linear
  end.

(** The selection rule in the words of the specification: a battery is
    present, it is not plugged in ([power_plugged] is not [True]), a
    previous percent and a previous timestamp exist, the percent dropped,
    and the elapsed hours are strictly positive. *)
Definition battery_model_selected : Prop :=
  exists b lbp lts,
    batt = Some b /\ power_plugged b <> Some true /\
    last_batt_percent = Some lbp /\ last_ts = Some lts /\
    percent b < lbp /\ 0 < (now - lts) / 3600.

(** The battery-discharge estimate in the words of the specification. *)
Definition battery_discharge_estimate (b : sbattery) (lbp lts : Q) : Q :=
  BATTERY_WH_CAPACITY * ((lbp - percent b) / 100) / ((now - lts) / 3600).

End EstimatePower.

(** ** Samples and stores *)

(** One row as the two [SELECT] statements return it:
    [timestamp, cpu_util, brightness, battery_percent, is_plugged,
    power_W, energy_Wh_cum].  Every column but [timestamp] is nullable. *)
Record sample : Type := mk_sample {
  col_timestamp : Z;
  col_cpu_util : option Q;
  col_brightness : option Q;
  col_battery_percent : option Q;
  col_is_plugged : option Z;
  col_power_W : option Q;
  col_energy_Wh_cum : option Q
}.

(** A stored row: the sample and its [id INTEGER PRIMARY KEY
    AUTOINCREMENT]. *)
Record stored : Type := mk_stored {
  id : Z;
  row : sample
}.

(** The [samples] table of one database file: its rows, as a scan of the
    table visits them. *)
Definition table : Type := list stored.

(** The id that [AUTOINCREMENT] gives to the next row: one more than the
    largest id in the table, [1] in an empty table. *)
Definition next_id (t : table) : Z :=
  fold_right (fun r m => Z.max (id r) m) 0%Z t + 1.

(** [INSERT INTO samples (...) VALUES (...)] followed by [commit]. *)
Definition insert (t : table) (s : sample) : table :=
  t ++ [mk_stored (next_id t) s].

(** [ORDER BY]: a stable insertion sort on an integer key. *)
Fixpoint insert_by {A : Type} (key : A -> Z) (x : A) (l : list A) : list A :=
  match l with
  | [] => [x]
  | y :: l' =>
      if (key x <=? key y)%Z then x :: y :: l'
      else y :: insert_by key x l'
  end.

Definition order_by {A : Type} (key : A -> Z) (l : list A) : list A :=
  fold_right (insert_by key) [] l.

(** The order that [ORDER BY key] asks for. *)
Definition key_le {A : Type} (key : A -> Z) (a b : A) : Prop :=
  (key a <= key b)%Z.

(** The two database files. *)
Record stores : Type := mk_stores {
  DB_LIVE : table;
  DB_SIM : table
}.

(** ** Exceptions *)

Inductive exn : Type :=
| sqlite3_Error
| OverflowError.

Inductive result (A : Type) : Type :=
| Ok (a : A)
| Raised (e : exn).

Arguments Ok {A} a.
Arguments Raised {A} e.

Definition bind {A B : Type} (r : result A) (k : A -> result B) : result B :=
  match r with
  | Ok a => k a
  | Raised e => Raised e
  end.

Notation "x <- r ;; k" := (bind r (fun x => k))
  (at level 61, r at next level, right associativity).

(** ** The collector *)

(** The state that [collector_thread] carries from one iteration of its
    loop to the next. *)
Record collector_state : Type := mk_state {
  st_last_ts : option Q;
  st_last_batt_percent : option Q;
  st_energy_cum_Wh : Q
}.

(** What one iteration reads from outside: [datetime.now()], the sensors,
    [time.time()] inside [estimate_power], [time.time()] for [now_ts], and
    whether the [INSERT] or its [commit] raises.  The two readings of
    [time.time()] that only set the length of the [sleep] are left out. *)
Record readings : Type := mk_readings {
  rd_datetime_now : Q;
  rd_cpu_percent : Q;
  rd_sensors_battery : option sbattery;
  rd_sbc_brightness : option Q;
  rd_time_estimate : Q;
  rd_time_now_ts : Q;
  rd_write_raises : bool
}.

(** [isoformat(timespec="seconds")]: the sub-second part is dropped. *)
Definition isoformat_seconds (t : Q) : Z := Qfloor t.

Definition initial_state : collector_state := mk_state None None 0.

Section Collector.

Variable BRIGHTNESS_AVAILABLE : bool.

(** The body of the loop up to the [INSERT]: the row to write and the
    state after the iteration. *)
Definition collector_iteration (st : collector_state) (rd : readings)
  : sample * collector_state :=
  let last_ts := st_last_ts st in
  let last_batt_percent := st_last_batt_percent st in
  let energy_cum_Wh := st_energy_cum_Wh st in
  let now_dt := isoformat_seconds (rd_datetime_now rd) in
  let cpu_util := rd_cpu_percent rd in
  let batt := rd_sensors_battery rd in
  let batt_percent := option_map percent batt in
  let is_plugged :=
    match batt with
    | Some b => if plugged b then 1%Z else 0%Z
    | None => 0%Z
    end in
  let brightness := get_brightness BRIGHTNESS_AVAILABLE (rd_sbc_brightness rd) in
  let power_W :=
    estimate_power (rd_time_estimate rd) cpu_util (Some brightness) batt
      last_batt_percent last_ts in
  let now_ts := rd_time_now_ts rd in
  let energy_cum_Wh :=
    match last_ts with
    | Some lts =>
        if truthy lts && truthy power_W then
          let dt_h := (now_ts - lts) / 3600 in
          energy_cum_Wh + power_W * dt_h
        else energy_cum_Wh
    | None => energy_cum_Wh
    end in
  (mk_sample now_dt (Some cpu_util) (Some brightness) batt_percent
     (Some is_plugged) (Some power_W) (Some energy_cum_Wh),
   mk_state (Some now_ts) batt_percent energy_cum_Wh).

(** [cur.execute(INSERT ...); conn.commit()]. *)
Definition persist (t : table) (rd : readings) (s : sample) : result table :=
  if rd_write_raises rd then Raised sqlite3_Error else Ok (insert t s).

(** How a run of the loop stands after a finite sequence of readings:
    still looping, or left by an exception. *)
Inductive status : Type :=
| Looping
| Terminated (e : exn).

(** [while True: ...] over the readings of successive iterations.  The
    loop has no exception handler: an exception raised in the body leaves
    the loop and ends the thread. *)
Fixpoint collector_loop (rds : list readings) (t : table) (st : collector_state)
  : table * collector_state * status :=
  match rds with
  | [] => (t, st, Looping)
  | rd :: rds' =>
      let (s, st') := collector_iteration st rd in
      match persist t rd s with
      | Ok t' => collector_loop rds' t' st'
      | Raised e => (t, st, Terminated e)
      end
  end.

Definition collector_thread (rds : list readings) (t : table)
  : table * collector_state * status :=
  collector_loop rds t initial_state.

End Collector.

(** The property that the specification asks of a failed write, in its
    words: the failure does not end the loop, which goes on to the next
    iteration. *)
Definition loop_survives_write_failure
  (avail : bool) (rds : list readings) (t : table) : Prop :=
  snd (collector_thread avail rds t) = Looping.

(** Readings along which the energy is integrated forward: the CPU load
    and the brightness read are not negative, and the elapsed time
    [dt_h] since the previous iteration is not negative. *)
Fixpoint steady (last_ts : option Q) (rds : list readings) : Prop :=
  match rds with
  | [] => True
  | rd :: rds' =>
      0 <= rd_cpu_percent rd
      /\ (forall v, rd_sbc_brightness rd = Some v -> 0 <= v)
      /\ (forall lts, last_ts = Some lts -> 0 <= (rd_time_now_ts rd - lts) / 3600)
      /\ steady (Some (rd_time_now_ts rd)) rds'
  end.

(** The [energy_Wh_cum] written in [b] is at least the one written in [a]. *)
Definition energy_le (a b : sample) : Prop :=
  exists e1 e2,
    col_energy_Wh_cum a = Some e1 /\ col_energy_Wh_cum b = Some e2 /\ e1 <= e2.

(** ** Fetching samples *)

(** Whole seconds from 0001-01-01T00:00:00 to the first instant after
    [datetime.max]. *)
Definition DATETIME_END : Z := 3652059 * 86400.

(** The largest number of days a [timedelta] holds. *)
Definition TIMEDELTA_MAX_DAYS : Z := 999999999.

(** [datetime.now() - timedelta(minutes=minutes)]: [OverflowError] when
    the interval or the resulting date is out of range. *)
Definition datetime_minus_minutes (now_dt : Q) (minutes : Z) : result Q :=
  let days := (minutes * 60 / 86400)%Z in
  if (Z.abs days <=? TIMEDELTA_MAX_DAYS)%Z then
    let since := now_dt - inject_Z (minutes * 60) in
    if Qle_bool 0 since && Qltb since (inject_Z DATETIME_END) then Ok since
    else Raised OverflowError
  else Raised OverflowError.

Section Queries.

(** [datetime.now()] at the time of the request, and the two stores. *)
Variable now_dt : Q.
Variable dbs : stores.

Definition fetch_samples (mode : string) (minutes : Z) : result (list sample) :=
  if String.eqb mode "live" then
    since <- datetime_minus_minutes now_dt minutes ;;
    Ok (map row
          (order_by (fun r => col_timestamp (row r))
             (filter (fun r => (isoformat_seconds since <=? col_timestamp (row r))%Z)
                (DB_LIVE dbs))))
  else
    Ok (map row (order_by id (DB_SIM dbs))).

End Queries.

(** ** Rounding *)

(** The integer nearest to [x], ties going to the even one. *)
Definition round_half_even (x : Q) : Z :=
  let f := Qfloor x in
  match Qcompare (x - inject_Z f) (1 # 2) with
  | Lt => f
  | Gt => (f + 1)%Z
  | Eq => if Z.even f then f else (f + 1)%Z
  end.

(** [round(x, ndigits)] for a non-negative number of digits. *)
Definition py_round (x : Q) (ndigits : nat) : Q :=
  let scale := inject_Z (10 ^ Z.of_nat ndigits) in
  inject_Z (round_half_even (x * scale)) / scale.

(** [y] is [x] rounded to [ndigits] decimals: a whole number of units
    of [10 ^ -ndigits], at most half a unit away from [x]. *)
Definition rounded_to (ndigits : nat) (x y : Q) : Prop :=
  (exists k : Z, y == inject_Z k / inject_Z (10 ^ Z.of_nat ndigits))
  /\ Qabs (y - x) <= 1 / (2 * inject_Z (10 ^ Z.of_nat ndigits)).

(** ** The request handlers *)

(** The query string as the handlers read it: [mode] when given, and
    [minutes] when given and an integer. *)
Record request_args : Type := mk_args {
  arg_mode : option string;
  arg_minutes : option Z
}.

(** [request.args.get(key, default)]. *)
Definition args_get {A : Type} (v : option A) (default : A) : A :=
  match v with
  | Some a => a
  | None => default
  end.

(** One element of the list that [api_data] returns. *)
Record data_point : Type := mk_data_point {
  json_index : Z;
  json_cpu_util : option Q;
  json_brightness : option Q;
  json_battery_percent : option Q;
  json_is_plugged : option Z;
  json_power_W : option Q;
  json_energy_Wh_cum : option Q
}.

(** The object that [api_summary] returns. *)
Record summary_result : Type := mk_summary {
  json_energy_Wh : Q;
  json_avg_power_W : Q;
  json_avg_cpu : Q;
  json_co2_kg : Q
}.

(** [sum(l)]. *)
Definition sum (l : list Q) : Q := fold_left Qplus l 0.

(** [len(l)], as a number. *)
Definition len {A : Type} (l : list A) : Q := inject_Z (Z.of_nat (List.length l)).

(** The loop of [api_data] over [enumerate(rows)], from index [idx]. *)
Fixpoint data_points (idx : Z) (rows : list sample) : list data_point :=
  match rows with
  | [] => []
  | r :: rows' =>
      mk_data_point (idx + 1) (col_cpu_util r) (col_brightness r)
        (col_battery_percent r) (col_is_plugged r) (col_power_W r)
        (col_energy_Wh_cum r)
      :: data_points (idx + 1) rows'
  end.

Section Summary.

Variable rows : list sample.

Definition powers : list Q := map (fun r => or_0 (col_power_W r)) rows.
Definition cpus : list Q := map (fun r => or_0 (col_cpu_util r)) rows.
Definition energies : list Q := map (fun r => or_0 (col_energy_Wh_cum r)) rows.

(** [energies[-1] - energies[0] if len(energies) > 1 else energies[-1]] *)
Definition energy_Wh : Q :=
  if (1 <? List.length energies)%nat then last energies 0 - hd 0 energies
  else last energies 0.

Definition avg_power : Q := sum powers / len powers.
Definition avg_cpu : Q := sum cpus / len cpus.
Definition energy_kWh : Q := energy_Wh / 1000.
Definition co2 : Q := energy_kWh * CO2_PER_KWH_KG.

(** The part of [api_summary] after [rows = fetch_samples(mode, minutes)]. *)
Definition summarize : summary_result :=
  match rows with
  | [] => mk_summary 0 0 0 0
  | _ :: _ =>
      mk_summary (py_round energy_Wh 2) (py_round avg_power 2)
        (py_round avg_cpu 1) (py_round co2 3)
  end.

End Summary.

Section Handlers.

Variable now_dt : Q.
Variable dbs : stores.

Definition api_data (args : request_args) : result (list data_point) :=
  let mode := args_get (arg_mode args) "sim"%string in
  let minutes := args_get (arg_minutes args) 60%Z in
  rows <- fetch_samples now_dt dbs mode minutes ;;
  Ok (data_points 0 rows).

Definition api_summary (args : request_args) : result summary_result :=
  let mode := args_get (arg_mode args) "sim"%string in
  let minutes := args_get (arg_minutes args) 60%Z in
  rows <- fetch_samples now_dt dbs mode minutes ;;
  Ok (summarize rows).

End Handlers.

(** ** The pause between two iterations *)

(** [max(0, SAMPLE_INTERVAL_SECONDS - (time.time() - start))], the
    argument of [time.sleep] at the end of an iteration: [start] is
    [time.time()] at the top of the loop body, [finish] the one read for
    the pause. *)
Definition sleep_duration (start finish : Q) : Q :=
  let remaining := SAMPLE_INTERVAL_SECONDS - (finish - start) in
  if Qltb 0 remaining then remaining else 0.

(** ** A live store written by two runs of the collector

    Two iterations half an hour apart, then a restart of the process and
    one more iteration a minute later, all with 40 % CPU load, 60 %
    brightness and no battery. *)

Definition first_run : list readings :=
  [mk_readings 1000 40 None (Some 60) 1000 1000 false;
   mk_readings 2800 40 None (Some 60) 2800 2800 false].

Definition second_run : list readings :=
  [mk_readings 2860 40 None (Some 60) 2860 2860 false].

Definition live_after_restart : table :=
  fst (fst (collector_thread true second_run
              (fst (fst (collector_thread true first_run []))))).

(** * Properties *)

(** ** Python values *)

Lemma Qltb_lt (x y : Q) : Qltb x y = true <-> x < y.
Proof.
  unfold Qltb. rewrite negb_true_iff. split; intro H.
  - apply Qnot_le_lt. intro Hle. apply Qle_bool_iff in Hle. congruence.
  - destruct (Qle_bool y x) eqn:E; [|reflexivity].
    apply Qle_bool_iff in E. exfalso. apply (Qlt_not_le _ _ H E).
Qed.

Lemma Qltb_nlt (x y : Q) : Qltb x y = false <-> ~ x < y.
Proof.
  rewrite <- Qltb_lt. destruct (Qltb x y); split; congruence.
Qed.

Lemma truthy_false (x : Q) : truthy x = false <-> x == 0.
Proof.
  unfold truthy. rewrite negb_false_iff. apply Qeq_bool_iff.
Qed.

Lemma or_0_eq (x : Q) : or_0 (Some x) == x.
Proof.
  unfold or_0. destruct (truthy x) eqn:E; [reflexivity|].
  apply truthy_false in E. symmetry. exact E.
Qed.

Lemma get_brightness_nonneg (available : bool) (reading : option Q) :
  (forall v, reading = Some v -> 0 <= v) ->
  0 <= get_brightness available reading.
Proof.
  intros H. unfold get_brightness, DEFAULT_BRIGHTNESS.
  destruct available; [|lra].
  destruct reading as [v|]; [apply H; reflexivity|lra].
Qed.

(** ** The power estimator *)

Lemma plugged_false_iff (b : sbattery) :
  plugged b = false <-> power_plugged b <> Some true.
Proof.
  unfold plugged. destruct (power_plugged b) as [[|]|]; split; congruence.
Qed.

(** The guards of [estimate_power], read off its local variable: the
    battery estimate is computed exactly when the selection rule of the
    specification holds, and then it is the discharge estimate. *)
Lemma battery_based_power_spec now batt last_batt_percent last_ts :
  match battery_based_power now batt last_batt_percent last_ts with
  | Some p =>
      exists b lbp lts,
        batt = Some b /\ power_plugged b <> Some true /\
        last_batt_percent = Some lbp /\ last_ts = Some lts /\
        percent b < lbp /\ 0 < (now - lts) / 3600 /\
        p = battery_discharge_estimate now b lbp lts
  | None => ~ battery_model_selected now batt last_batt_percent last_ts
  end.
Proof.
  unfold battery_based_power, battery_model_selected.
  destruct batt as [b|].
  2:{ intros (b & lbp & lts & H & _). discriminate. }
  destruct (plugged b) eqn:Hp; cbn [negb].
  { intros (b' & lbp & lts & H & Hp' & _). injection H as <-.
    apply plugged_false_iff in Hp'. congruence. }
  apply plugged_false_iff in Hp.
  destruct last_batt_percent as [lbp|].
  2:{ intros (b' & lbp & lts & _ & _ & H & _). discriminate. }
  destruct last_ts as [lts|].
  2:{ intros (b' & lbp' & lts & _ & _ & _ & H & _). discriminate. }
  destruct (Qltb (percent b) lbp) eqn:Hlt.
  2:{ apply Qltb_nlt in Hlt.
      intros (b' & lbp' & lts' & Hb & _ & Hl & _ & H & _).
      injection Hb as <-. injection Hl as <-. contradiction. }
  cbv zeta.
  destruct (Qltb 0 ((now - lts) / 3600)) eqn:Hdt.
  2:{ apply Qltb_nlt in Hdt.
      intros (b' & lbp' & lts' & _ & _ & _ & Ht & _ & H).
      injection Ht as <-. contradiction. }
  apply Qltb_lt in Hlt, Hdt.
  exists b, lbp, lts. repeat split; assumption.
Qed.

Lemma or_0_value (x : option Q) :
  or_0 x == match x with Some v => v | None => 0 end.
Proof.
  destruct x as [v|]; [apply or_0_eq | reflexivity].
Qed.

(** C1. [estimate_power] takes the battery-discharge branch if and only
    if a battery is present, it is not plugged in ([power_plugged] is not
    [True]), a previous percent and a previous timestamp exist, the
    percent is strictly below the previous one and the elapsed hours
    [(now - last_ts) / 3600] are strictly positive.  It then returns the
    discharge estimate, [50 * ((last_batt_percent - percent) / 100) /
    dt_h]; in every other case it returns the linear estimate,
    [8 + 0.25 * cpu_util + 0.08 * brightness], a missing brightness
    counting as 0. *)
Theorem estimate_power_model_selection
  (now cpu_util : Q) (brightness : option Q) (batt : option sbattery)
  (last_batt_percent last_ts : option Q) :
  (battery_based_power now batt last_batt_percent last_ts <> None
   <-> battery_model_selected now batt last_batt_percent last_ts)
  /\ (forall b lbp lts,
        batt = Some b -> last_batt_percent = Some lbp -> last_ts = Some lts ->
        battery_model_selected now batt last_batt_percent last_ts ->
        estimate_power now cpu_util brightness batt last_batt_percent last_ts
        = battery_discharge_estimate now b lbp lts
        /\ estimate_power now cpu_util brightness batt last_batt_percent last_ts
           == 50 * ((lbp - percent b) / 100) / ((now - lts) / 3600))
  /\ (~ battery_model_selected now batt last_batt_percent last_ts ->
      estimate_power now cpu_util brightness batt last_batt_percent last_ts
      = power_linear cpu_util brightness
      /\ estimate_power now cpu_util brightness batt last_batt_percent last_ts
         == 8 + (25 # 100) * cpu_util
            + (8 # 100) * match brightness with Some v => v | None => 0 end).
Proof.
  pose proof (battery_based_power_spec now batt last_batt_percent last_ts) as H.
  unfold estimate_power.
  destruct (battery_based_power now batt last_batt_percent last_ts) as [p|].
  - destruct H as (b & lbp & lts & Hb & Hp & Hl & Ht & Hlt & Hdt & ->).
    assert (Hsel : battery_model_selected now batt last_batt_percent last_ts).
    { exists b, lbp, lts. repeat split; assumption. }
    split; [|split].
    + split; [intros _; exact Hsel | intros _; discriminate].
    + intros b' lbp' lts' Hb' Hl' Ht' _.
      assert (b' = b) by congruence. assert (lbp' = lbp) by congruence.
      assert (lts' = lts) by congruence. subst b' lbp' lts'.
      split; reflexivity.
    + intros Hn. contradiction.
  - split; [|split].
    + split; [intros Hn; congruence | intros Hs; contradiction].
    + intros b lbp lts _ _ _ Hs. contradiction.
    + intros _. split; [reflexivity|].
      unfold power_linear, BASE_POWER_W, CPU_POWER_COEFF, BRIGHTNESS_POWER_COEFF.
      rewrite or_0_value. reflexivity.
Qed.

(** C3. With non-negative CPU load and brightness the linear estimate,
    [BASE_POWER_W + CPU_POWER_COEFF * cpu_util + BRIGHTNESS_POWER_COEFF *
    brightness], is at least [BASE_POWER_W], which is 8 W. *)
Theorem power_linear_at_least_base (cpu_util brightness : Q) :
  0 <= cpu_util -> 0 <= brightness ->
  power_linear cpu_util (Some brightness)
  == BASE_POWER_W + CPU_POWER_COEFF * cpu_util + BRIGHTNESS_POWER_COEFF * brightness
  /\ BASE_POWER_W <= power_linear cpu_util (Some brightness)
  /\ BASE_POWER_W == 8.
Proof.
  intros Hc Hb. unfold power_linear.
  rewrite or_0_eq.
  unfold BASE_POWER_W, CPU_POWER_COEFF, BRIGHTNESS_POWER_COEFF.
  repeat split; lra.
Qed.

Lemma power_linear_at_least_base_witness :
  0 <= 40 /\ 0 <= 60 /\
  power_linear 40 (Some 60) == 228 # 10 /\
  BASE_POWER_W <= power_linear 40 (Some 60).
Proof.
  assert (Hc : 0 <= 40) by (unfold Qle; simpl; lia).
  assert (Hb : 0 <= 60) by (unfold Qle; simpl; lia).
  destruct (power_linear_at_least_base 40 60 Hc Hb) as (Heq & Hle & _).
  split; [exact Hc|]. split; [exact Hb|]. split; [|exact Hle].
  rewrite Heq. reflexivity.
Defined.

Lemma estimate_power_model_selection_witness :
  (* unplugged, 80 % -> 78 % in a tenth of an hour: the battery estimate *)
  estimate_power 360 40 (Some 60) (Some (mk_sbattery 78 (Some false)))
    (Some 80) (Some 0) == 10
  (* the same readings with the cable in: the linear estimate *)
  /\ estimate_power 360 40 (Some 60) (Some (mk_sbattery 78 (Some true)))
       (Some 80) (Some 0) == 228 # 10
  (* plug state unknown counts as not plugged in *)
  /\ estimate_power 360 40 (Some 60) (Some (mk_sbattery 78 None))
       (Some 80) (Some 0) == 10
  (* no battery *)
  /\ estimate_power 360 40 (Some 60) None (Some 80) (Some 0) == 228 # 10
  (* the clock did not advance *)
  /\ estimate_power 0 40 None (Some (mk_sbattery 78 (Some false)))
       (Some 80) (Some 0) == 18.
Proof.
  split; [|split; [|split; [|split]]].
  - destruct (estimate_power_model_selection 360 40 (Some 60)
                (Some (mk_sbattery 78 (Some false))) (Some 80) (Some 0))
      as (_ & Hb & _).
    destruct (Hb (mk_sbattery 78 (Some false)) 80 0 eq_refl eq_refl eq_refl)
      as [_ He].
    + exists (mk_sbattery 78 (Some false)), 80, 0.
      repeat split; try reflexivity. discriminate.
    + rewrite He. reflexivity.
  - destruct (estimate_power_model_selection 360 40 (Some 60)
                (Some (mk_sbattery 78 (Some true))) (Some 80) (Some 0))
      as (_ & _ & Hl).
    destruct Hl as [_ He].
    + intros (b & lbp & lts & Hb & Hp & _). injection Hb as <-.
      apply Hp. reflexivity.
    + rewrite He. reflexivity.
  - destruct (estimate_power_model_selection 360 40 (Some 60)
                (Some (mk_sbattery 78 None)) (Some 80) (Some 0))
      as (_ & Hb & _).
    destruct (Hb (mk_sbattery 78 None) 80 0 eq_refl eq_refl eq_refl) as [_ He].
    + exists (mk_sbattery 78 None), 80, 0.
      repeat split; try reflexivity. discriminate.
    + rewrite He. reflexivity.
  - destruct (estimate_power_model_selection 360 40 (Some 60) None
                (Some 80) (Some 0)) as (_ & _ & Hl).
    destruct Hl as [_ He].
    + intros (b & lbp & lts & Hb & _). discriminate Hb.
    + rewrite He. reflexivity.
  - destruct (estimate_power_model_selection 0 40 None
                (Some (mk_sbattery 78 (Some false))) (Some 80) (Some 0))
      as (_ & _ & Hl).
    destruct Hl as [_ He].
    + intros (b & lbp & lts & _ & _ & _ & Ht & _ & Hdt).
      injection Ht as <-. revert Hdt. apply Qle_not_lt. discriminate.
    + rewrite He. reflexivity.
Defined.

(** The two worked examples of the power model: 40 % CPU load and 60 %
    brightness without a battery give 22.8 W; a battery that went from
    80 % to 78 % in a tenth of an hour gives 10 W. *)
Example estimate_power_linear_example :
  estimate_power 360 40 (Some 60) None None None == 228 # 10.
Proof. reflexivity. Qed.

Example estimate_power_battery_example :
  estimate_power 360 40 (Some 60) (Some (mk_sbattery 78 (Some false)))
    (Some 80) (Some 0) == 10.
Proof. reflexivity. Qed.

(** The estimate is strictly positive whenever the CPU load and the
    brightness are not negative: the linear estimate is at least the base
    power, and the battery estimate is a positive drop over a positive
    time. *)
Lemma estimate_power_pos
  (now cpu_util : Q) (brightness : option Q) (batt : option sbattery)
  (last_batt_percent last_ts : option Q) :
  0 <= cpu_util -> (forall v, brightness = Some v -> 0 <= v) ->
  0 < estimate_power now cpu_util brightness batt last_batt_percent last_ts.
Proof.
  intros Hc Hb.
  pose proof (battery_based_power_spec now batt last_batt_percent last_ts) as H.
  unfold estimate_power.
  destruct (battery_based_power now batt last_batt_percent last_ts) as [p|].
  - destruct H as (b & lbp & lts & _ & _ & _ & _ & Hlt & Hdt & ->).
    unfold battery_discharge_estimate, BATTERY_WH_CAPACITY.
    apply Qlt_shift_div_l; [exact Hdt|].
    rewrite Qmult_0_l.
    apply Qmult_lt_0_compat; [reflexivity|].
    apply Qlt_shift_div_l; [reflexivity|]. lra.
  - unfold power_linear.
    assert (Hz : 0 <= or_0 brightness).
    { destruct brightness as [v|]; [|apply Qle_refl].
      rewrite or_0_eq. apply Hb. reflexivity. }
    unfold BASE_POWER_W, CPU_POWER_COEFF, BRIGHTNESS_POWER_COEFF. lra.
Qed.

(** ** The collector *)

(** The row written by an iteration carries the cumulative energy that the
    iteration leaves in the state. *)
Lemma collector_iteration_energy avail st rd :
  col_energy_Wh_cum (fst (collector_iteration avail st rd))
  = Some (st_energy_cum_Wh (snd (collector_iteration avail st rd))).
Proof. reflexivity. Qed.

Lemma collector_iteration_last_ts avail st rd :
  st_last_ts (snd (collector_iteration avail st rd)) = Some (rd_time_now_ts rd).
Proof. reflexivity. Qed.

(** The power written by an iteration is strictly positive when the
    readings are not negative. *)
Lemma collector_iteration_power_pos avail st rd :
  0 <= rd_cpu_percent rd ->
  (forall v, rd_sbc_brightness rd = Some v -> 0 <= v) ->
  exists p, col_power_W (fst (collector_iteration avail st rd)) = Some p /\ 0 < p.
Proof.
  intros Hc Hb. eexists. split; [reflexivity|].
  apply estimate_power_pos; [exact Hc|].
  intros v Hv. injection Hv as <-. apply get_brightness_nonneg. exact Hb.
Qed.

(** One integration step: with readings that are not negative and a
    clock that did not go back, the cumulative energy does not drop. *)
Lemma collector_iteration_energy_le avail st rd :
  0 <= rd_cpu_percent rd ->
  (forall v, rd_sbc_brightness rd = Some v -> 0 <= v) ->
  (forall lts, st_last_ts st = Some lts -> 0 <= (rd_time_now_ts rd - lts) / 3600) ->
  st_energy_cum_Wh st <= st_energy_cum_Wh (snd (collector_iteration avail st rd)).
Proof.
  intros Hc Hb Ht.
  unfold collector_iteration. cbn [snd st_energy_cum_Wh].
  destruct (st_last_ts st) as [lts|]; [|apply Qle_refl].
  match goal with |- context [if ?c then _ else _] => destruct c end;
    [|apply Qle_refl].
  cbv zeta.
  match goal with |- _ <= _ + ?p * ?d => assert (Hp : 0 <= p * d) end.
  { apply Qmult_le_0_compat; [|apply Ht; reflexivity].
    apply Qlt_le_weak. apply estimate_power_pos; [exact Hc|].
    intros v Hv. injection Hv as <-. apply get_brightness_nonneg. exact Hb. }
  lra.
Qed.

(** Two consecutive iterations, from any state: the second writes at
    least the cumulative energy that the first wrote. *)
Lemma consecutive_iterations_energy_le
  (avail : bool) (st : collector_state) (rd1 rd2 : readings) :
  0 <= rd_cpu_percent rd2 ->
  (forall v, rd_sbc_brightness rd2 = Some v -> 0 <= v) ->
  0 <= (rd_time_now_ts rd2 - rd_time_now_ts rd1) / 3600 ->
  energy_le
    (fst (collector_iteration avail st rd1))
    (fst (collector_iteration avail (snd (collector_iteration avail st rd1)) rd2)).
Proof.
  intros Hc Hb Ht.
  eexists. eexists.
  split; [apply collector_iteration_energy|].
  split; [apply collector_iteration_energy|].
  apply collector_iteration_energy_le; [exact Hc|exact Hb|].
  intros lts Hl. rewrite collector_iteration_last_ts in Hl.
  injection Hl as <-. exact Ht.
Qed.

(** The rows that a run of the loop appends, from any state: each holds at
    least the cumulative energy of the state the run started from, and
    each at least as much as the row before it. *)
Lemma collector_loop_energy_sorted avail rds :
  forall t st,
    steady (st_last_ts st) rds ->
    exists news,
      fst (fst (collector_loop avail rds t st)) = t ++ news
      /\ Forall (fun r => exists e, col_energy_Wh_cum (row r) = Some e
                                   /\ st_energy_cum_Wh st <= e) news
      /\ Sorted energy_le (map row news).
Proof.
  induction rds as [|rd rds IH]; intros t st Hst.
  - exists []. cbn. rewrite app_nil_r. repeat constructor.
  - destruct Hst as (Hc & Hb & Ht & Hrest).
    pose proof (collector_iteration_energy_le avail st rd Hc Hb Ht) as Hle.
    pose proof (collector_iteration_energy avail st rd) as Hen.
    pose proof (collector_iteration_last_ts avail st rd) as Hts.
    cbn [collector_loop].
    destruct (collector_iteration avail st rd) as [s st1].
    cbn [fst snd] in Hle, Hen, Hts.
    unfold persist. destruct (rd_write_raises rd).
    { exists []. cbn. rewrite app_nil_r. repeat constructor. }
    rewrite <- Hts in Hrest.
    destruct (IH (insert t s) st1 Hrest) as (news & Heq & Hall & Hsorted).
    exists (mk_stored (next_id t) s :: news).
    split; [rewrite Heq; unfold insert; rewrite <- app_assoc; reflexivity|].
    split.
    + constructor.
      * exists (st_energy_cum_Wh st1). split; [exact Hen | exact Hle].
      * apply (Forall_impl _ (P := fun r => exists e,
                   col_energy_Wh_cum (row r) = Some e /\ st_energy_cum_Wh st1 <= e));
          [|exact Hall].
        intros r (e & He1 & He2). exists e. split; [exact He1|].
        apply Qle_trans with (st_energy_cum_Wh st1); assumption.
    + cbn [map row]. constructor; [exact Hsorted|].
      destruct news as [|r news]; cbn [map]; constructor.
      inversion Hall as [|? ? (e & He1 & He2) ?]; subst.
      exists (st_energy_cum_Wh st1), e. repeat split; assumption.
Qed.

(** C2. Within one run of the collector, whatever the table held
    before: if the CPU and brightness readings are not negative and the
    elapsed time [dt_h] between consecutive iterations is not negative,
    the rows that the run writes carry [energy_Wh_cum] values in
    non-decreasing order, each row at least the one before it. *)
Theorem energy_Wh_cum_non_decreasing
  (avail : bool) (rds : list readings) (t : table) :
  steady None rds ->
  exists news,
    fst (fst (collector_thread avail rds t)) = t ++ news
    /\ Sorted energy_le (map row news).
Proof.
  intros Hst.
  destruct (collector_loop_energy_sorted avail rds t initial_state Hst)
    as (news & Heq & _ & Hsorted).
  exists news. split; assumption.
Qed.

Lemma energy_Wh_cum_non_decreasing_witness :
  exists news,
    fst (fst (collector_thread true first_run [])) = [] ++ news
    /\ Sorted energy_le (map row news).
Proof.
  apply (energy_Wh_cum_non_decreasing true first_run []).
  cbn [steady first_run rd_cpu_percent rd_sbc_brightness rd_time_now_ts].
  split; [unfold Qle; simpl; lia|].
  split; [intros v Hv; injection Hv as <-; unfold Qle; simpl; lia|].
  split; [intros lts Hl; discriminate|].
  split; [unfold Qle; simpl; lia|].
  split; [intros v Hv; injection Hv as <-; unfold Qle; simpl; lia|].
  split; [intros lts Hl; injection Hl as <-; unfold Qle; simpl; lia|].
  exact I.
Defined.

(** C9. An iteration in which the battery sensor reports no battery
    writes [is_plugged = 0] and a null [battery_percent]; an iteration
    with a battery that is not plugged in writes the same [is_plugged], so
    the column does not tell the two apart. *)
Theorem no_battery_recorded_as_unplugged
  (avail : bool) (st : collector_state) (rd : readings) :
  rd_sensors_battery rd = None ->
  col_is_plugged (fst (collector_iteration avail st rd)) = Some 0%Z
  /\ col_battery_percent (fst (collector_iteration avail st rd)) = None
  /\ (forall st' rd' b,
        rd_sensors_battery rd' = Some b -> plugged b = false ->
        col_is_plugged (fst (collector_iteration avail st' rd'))
        = col_is_plugged (fst (collector_iteration avail st rd))
        /\ col_battery_percent (fst (collector_iteration avail st' rd'))
           = Some (percent b))
  /\ (forall t, rd_write_raises rd = false ->
        persist t rd (fst (collector_iteration avail st rd))
        = Ok (t ++ [mk_stored (next_id t) (fst (collector_iteration avail st rd))])).
Proof.
  intros Hb. unfold collector_iteration. cbn [fst col_is_plugged col_battery_percent].
  rewrite Hb. cbn [option_map].
  split; [reflexivity|]. split; [reflexivity|]. split.
  - intros st' rd' b Hb' Hp. rewrite Hb'. cbn [option_map]. rewrite Hp.
    split; reflexivity.
  - intros t Hw. unfold persist. rewrite Hw. reflexivity.
Qed.

Lemma no_battery_recorded_as_unplugged_witness :
  col_is_plugged
    (fst (collector_iteration true initial_state
            (mk_readings 1000 40 None (Some 60) 1000 1001 false))) = Some 0%Z
  /\ col_battery_percent
       (fst (collector_iteration true initial_state
               (mk_readings 1000 40 None (Some 60) 1000 1001 false))) = None.
Proof.
  destruct (no_battery_recorded_as_unplugged true initial_state
              (mk_readings 1000 40 None (Some 60) 1000 1001 false) eq_refl)
    as (H1 & H2 & _).
  split; assumption.
Defined.

(** A run in which the first write fails and the second would succeed:
    the loop is left by the exception, and the second sample is never
    written. *)
Lemma write_failure_ends_collector :
  ~ loop_survives_write_failure true
      [mk_readings 1000 40 None (Some 60) 1000 1001 true;
       mk_readings 1002 40 None (Some 60) 1002 1003 false] []
  /\ fst (fst (collector_thread true
                 [mk_readings 1000 40 None (Some 60) 1000 1001 true;
                  mk_readings 1002 40 None (Some 60) 1002 1003 false] [])) = [].
Proof.
  split; [|reflexivity].
  unfold loop_survives_write_failure. cbn. discriminate.
Qed.

(** Iterations whose writes succeed keep the loop going. *)
Lemma collector_loop_app avail pre post t st :
  (forall r, In r pre -> rd_write_raises r = false) ->
  collector_loop avail (pre ++ post) t st
  = collector_loop avail post
      (fst (fst (collector_loop avail pre t st)))
      (snd (fst (collector_loop avail pre t st))).
Proof.
  revert t st. induction pre as [|rd pre IH]; intros t st Hok; [reflexivity|].
  cbn [app collector_loop].
  destruct (collector_iteration avail st rd) as [s st'].
  unfold persist. rewrite (Hok rd (or_introl eq_refl)).
  apply IH. intros r Hr. apply Hok. right. exact Hr.
Qed.

(** C7, as the code has it.  The loop has no handler around the write:
    when the write of an iteration raises, the exception leaves the loop
    and ends the collector; the table and the state stay as the earlier
    iterations left them, and no later iteration runs. *)
Theorem write_failure_terminates_collector
  (avail : bool) (pre post : list readings) (rd : readings)
  (t : table) (st : collector_state) :
  (forall r, In r pre -> rd_write_raises r = false) ->
  rd_write_raises rd = true ->
  collector_loop avail (pre ++ rd :: post) t st
  = (fst (fst (collector_loop avail pre t st)),
     snd (fst (collector_loop avail pre t st)),
     Terminated sqlite3_Error).
Proof.
  intros Hpre Hrd. rewrite (collector_loop_app avail pre (rd :: post) t st Hpre).
  cbn [collector_loop].
  destruct (collector_iteration avail _ rd) as [s st'].
  unfold persist. rewrite Hrd. reflexivity.
Qed.

Lemma write_failure_terminates_collector_witness :
  collector_loop true
    ([mk_readings 1000 40 None (Some 60) 1000 1001 false]
       ++ mk_readings 1002 40 None (Some 60) 1002 1003 true
       :: [mk_readings 1004 40 None (Some 60) 1004 1005 false])
    [] initial_state
  = (fst (fst (collector_loop true
                 [mk_readings 1000 40 None (Some 60) 1000 1001 false]
                 [] initial_state)),
     snd (fst (collector_loop true
                 [mk_readings 1000 40 None (Some 60) 1000 1001 false]
                 [] initial_state)),
     Terminated sqlite3_Error).
Proof.
  apply (write_failure_terminates_collector true
           [mk_readings 1000 40 None (Some 60) 1000 1001 false]
           [mk_readings 1004 40 None (Some 60) 1004 1005 false]
           (mk_readings 1002 40 None (Some 60) 1002 1003 true)
           [] initial_state).
  - intros r [<-|[]]. reflexivity.
  - reflexivity.
Defined.

(** ** Rounding *)

Lemma round_half_even_comp (x y : Q) :
  x == y -> round_half_even x = round_half_even y.
Proof.
  intros H. unfold round_half_even.
  rewrite (Qfloor_comp x y H).
  assert (Hc : Qcompare (x - inject_Z (Qfloor y)) (1 # 2)
               = Qcompare (y - inject_Z (Qfloor y)) (1 # 2)).
  { apply Qcompare_comp; [rewrite H; reflexivity | reflexivity]. }
  rewrite Hc. reflexivity.
Qed.

Lemma py_round_comp (x y : Q) (ndigits : nat) :
  x == y -> py_round x ndigits == py_round y ndigits.
Proof.
  intros H. unfold py_round.
  set (s := inject_Z (10 ^ Z.of_nat ndigits)).
  rewrite (round_half_even_comp (x * s) (y * s)); [reflexivity|].
  rewrite H. reflexivity.
Qed.

(** The nearest integer is at most one half away. *)
Lemma round_half_even_near (x : Q) :
  Qabs (inject_Z (round_half_even x) - x) <= 1 # 2.
Proof.
  unfold round_half_even.
  pose proof (Qfloor_le x) as Hlo.
  pose proof (Qlt_floor x) as Hhi.
  rewrite inject_Z_plus in Hhi. change (inject_Z 1) with 1 in Hhi.
  apply Qabs_Qle_condition.
  destruct (Qcompare (x - inject_Z (Qfloor x)) (1 # 2)) eqn:E.
  - apply Qeq_alt in E.
    destruct (Z.even (Qfloor x)).
    + split; lra.
    + rewrite inject_Z_plus. change (inject_Z 1) with 1. split; lra.
  - apply Qlt_alt in E. split; lra.
  - apply Qgt_alt in E.
    rewrite inject_Z_plus. change (inject_Z 1) with 1. split; lra.
Qed.

Lemma scale_pos (ndigits : nat) : 0 < inject_Z (10 ^ Z.of_nat ndigits).
Proof.
  change 0 with (inject_Z 0). rewrite <- Zlt_Qlt.
  apply Z.pow_pos_nonneg; lia.
Qed.

(** [round(x, ndigits)] is [x] rounded to [ndigits] decimals. *)
Lemma py_round_rounded_to (x : Q) (ndigits : nat) :
  rounded_to ndigits x (py_round x ndigits).
Proof.
  unfold rounded_to, py_round.
  pose proof (scale_pos ndigits) as Hs.
  set (s := inject_Z (10 ^ Z.of_nat ndigits)) in *.
  split; [eexists; reflexivity|].
  pose proof (round_half_even_near (x * s)) as Hn.
  set (k := inject_Z (round_half_even (x * s))) in *.
  apply Qabs_Qle_condition in Hn. destruct Hn as [Hn1 Hn2].
  assert (Hne : ~ s == 0) by lra.
  assert (Hd : k / s - x == (k - x * s) / s) by (field; exact Hne).
  assert (Hh : 1 / (2 * s) == (1 # 2) / s) by (field; exact Hne).
  rewrite Hd, Hh.
  apply Qabs_Qle_condition. split.
  - apply Qle_shift_div_l; [exact Hs|].
    assert (He : - ((1 # 2) / s) * s == - (1 # 2)) by (field; exact Hne).
    rewrite He. exact Hn1.
  - apply Qle_shift_div_r; [exact Hs|].
    assert (He : (1 # 2) / s * s == 1 # 2) by (field; exact Hne).
    rewrite He. exact Hn2.
Qed.

(** ** The summary *)

(** C4. When the queried window is empty, [api_summary] returns the
    object whose four fields are zero, and [api_data] returns the empty
    list; neither raises. *)
Theorem empty_window_summary_is_zero
  (now_dt : Q) (dbs : stores) (args : request_args) :
  fetch_samples now_dt dbs (args_get (arg_mode args) "sim"%string)
    (args_get (arg_minutes args) 60%Z) = Ok [] ->
  api_summary now_dt dbs args = Ok (mk_summary 0 0 0 0)
  /\ api_data now_dt dbs args = Ok [].
Proof.
  intros H. unfold api_summary, api_data. rewrite H. split; reflexivity.
Qed.

Lemma empty_window_summary_is_zero_witness :
  api_summary 100000 (mk_stores [] []) (mk_args None None)
  = Ok (mk_summary 0 0 0 0)
  /\ api_data 100000 (mk_stores [] []) (mk_args None None) = Ok [].
Proof.
  apply (empty_window_summary_is_zero 100000 (mk_stores [] []) (mk_args None None)).
  reflexivity.
Defined.

Lemma last_map {A B : Type} (f : A -> B) (l : list A) (a : A) (b : B) :
  l <> [] -> last (map f l) b = f (last l a).
Proof.
  induction l as [|x l IH]; intros Hne; [congruence|].
  destruct l as [|y l]; [reflexivity|].
  change (last (map f (y :: l)) b = f (last (y :: l) a)).
  apply IH. discriminate.
Qed.

Lemma rounded_to_comp (ndigits : nat) (x x' y : Q) :
  x == x' -> rounded_to ndigits x y -> rounded_to ndigits x' y.
Proof.
  intros Hx [Hk Hd]. split; [exact Hk|].
  rewrite <- Hx. exact Hd.
Qed.

(** C5. For a non-empty window, the [energy_Wh] of [api_summary] is the
    stored cumulative energy of the single sample when there is one
    sample (not a zero delta), and the stored cumulative energy of the
    last sample minus that of the first when there are more; a null
    cumulative energy counts as 0.  The field returned is that value
    rounded to two decimals. *)
Theorem summary_energy_is_last_minus_first (r : sample) (rows : list sample) :
  energy_Wh (r :: rows)
  == match rows with
     | [] => match col_energy_Wh_cum r with Some e => e | None => 0 end
     | _ :: _ =>
         match col_energy_Wh_cum (last rows r) with Some e => e | None => 0 end
         - match col_energy_Wh_cum r with Some e => e | None => 0 end
     end
  /\ rounded_to 2
       match rows with
       | [] => match col_energy_Wh_cum r with Some e => e | None => 0 end
       | _ :: _ =>
           match col_energy_Wh_cum (last rows r) with Some e => e | None => 0 end
           - match col_energy_Wh_cum r with Some e => e | None => 0 end
       end
       (json_energy_Wh (summarize (r :: rows))).
Proof.
  assert (He : energy_Wh (r :: rows)
               == match rows with
                  | [] => match col_energy_Wh_cum r with Some e => e | None => 0 end
                  | _ :: _ =>
                      match col_energy_Wh_cum (last rows r) with
                      | Some e => e | None => 0 end
                      - match col_energy_Wh_cum r with Some e => e | None => 0 end
                  end).
  { unfold energy_Wh, energies.
    destruct rows as [|r2 rows].
    - cbn [map List.length Nat.ltb Nat.leb last]. apply or_0_value.
    - cbn [map List.length Nat.ltb Nat.leb hd].
      change (last (or_0 (col_energy_Wh_cum r)
                    :: or_0 (col_energy_Wh_cum r2)
                    :: map (fun r0 => or_0 (col_energy_Wh_cum r0)) rows) 0)
        with (last (map (fun r0 => or_0 (col_energy_Wh_cum r0)) (r2 :: rows)) 0).
      rewrite (last_map _ (r2 :: rows) r 0) by discriminate.
      rewrite !or_0_value. reflexivity. }
  split; [exact He|].
  apply (rounded_to_comp 2 (energy_Wh (r :: rows))); [exact He|].
  apply py_round_rounded_to.
Qed.

Lemma summary_energy_is_last_minus_first_witness :
  (* one sample: its own cumulative energy, not 0 *)
  energy_Wh [mk_sample 0 (Some 40) (Some 60) None (Some 0%Z) (Some (228 # 10)) (Some 5)]
  == 5
  (* several samples: last minus first *)
  /\ energy_Wh
       [mk_sample 0 (Some 40) (Some 60) None (Some 0%Z) (Some (228 # 10)) (Some 100);
        mk_sample 2 (Some 40) (Some 60) None (Some 0%Z) (Some (228 # 10)) (Some 150);
        mk_sample 4 (Some 40) (Some 60) None (Some 0%Z) (Some (228 # 10)) (Some 230)]
     == 230 - 100
  (* a null first value counts as 0 *)
  /\ energy_Wh
       [mk_sample 0 (Some 40) (Some 60) None (Some 0%Z) (Some (228 # 10)) None;
        mk_sample 2 (Some 40) (Some 60) None (Some 0%Z) (Some (228 # 10)) (Some 7)]
     == 7.
Proof.
  split; [|split].
  - apply (summary_energy_is_last_minus_first
             (mk_sample 0 (Some 40) (Some 60) None (Some 0%Z) (Some (228 # 10)) (Some 5))
             []).
  - apply (summary_energy_is_last_minus_first
             (mk_sample 0 (Some 40) (Some 60) None (Some 0%Z) (Some (228 # 10)) (Some 100))
             [mk_sample 2 (Some 40) (Some 60) None (Some 0%Z) (Some (228 # 10)) (Some 150);
              mk_sample 4 (Some 40) (Some 60) None (Some 0%Z) (Some (228 # 10)) (Some 230)]).
  - destruct (summary_energy_is_last_minus_first
                (mk_sample 0 (Some 40) (Some 60) None (Some 0%Z) (Some (228 # 10)) None)
                [mk_sample 2 (Some 40) (Some 60) None (Some 0%Z) (Some (228 # 10)) (Some 7)])
      as [He _].
    rewrite He. reflexivity.
Defined.

(** C6. A window of three samples whose cumulative energies are 100,
    150 and 230 Wh, with 0.7 kg of CO2 per kWh: [energy_Wh] is 130,
    [co2] is 0.091, the fields returned are these same values, and each
    field is its value rounded to its display precision (two decimals for
    energy and power, one for the CPU load, three for CO2). *)
Theorem summary_example_130_Wh (r1 r2 r3 : sample) :
  or_0 (col_energy_Wh_cum r1) == 100 ->
  or_0 (col_energy_Wh_cum r2) == 150 ->
  or_0 (col_energy_Wh_cum r3) == 230 ->
  CO2_PER_KWH_KG == 7 # 10
  /\ energy_Wh [r1; r2; r3] == 230 - 100
  /\ energy_Wh [r1; r2; r3] == 130
  /\ co2 [r1; r2; r3] == (130 / 1000) * (7 # 10)
  /\ co2 [r1; r2; r3] == 91 # 1000
  /\ json_energy_Wh (summarize [r1; r2; r3]) == 130
  /\ json_co2_kg (summarize [r1; r2; r3]) == 91 # 1000
  /\ rounded_to 2 (energy_Wh [r1; r2; r3]) (json_energy_Wh (summarize [r1; r2; r3]))
  /\ rounded_to 2 (avg_power [r1; r2; r3]) (json_avg_power_W (summarize [r1; r2; r3]))
  /\ rounded_to 1 (avg_cpu [r1; r2; r3]) (json_avg_cpu (summarize [r1; r2; r3]))
  /\ rounded_to 3 (co2 [r1; r2; r3]) (json_co2_kg (summarize [r1; r2; r3])).
Proof.
  intros H1 H2 H3.
  assert (He : energy_Wh [r1; r2; r3] == 130).
  { unfold energy_Wh, energies. cbn [map List.length Nat.ltb Nat.leb last hd].
    rewrite H1, H3. reflexivity. }
  assert (Hc : co2 [r1; r2; r3] == 91 # 1000).
  { unfold co2, energy_kWh. rewrite He. reflexivity. }
  split; [reflexivity|]. split; [rewrite He; reflexivity|].
  split; [exact He|]. split; [rewrite Hc; reflexivity|].
  split; [exact Hc|].
  cbn [summarize json_energy_Wh json_avg_power_W json_avg_cpu json_co2_kg].
  split; [rewrite (py_round_comp _ _ 2 He); reflexivity|].
  split; [rewrite (py_round_comp _ _ 3 Hc); reflexivity|].
  repeat split; apply py_round_rounded_to.
Qed.

Lemma summary_example_130_Wh_witness :
  json_energy_Wh
    (summarize
       [mk_sample 0 (Some 40) (Some 60) None (Some 0%Z) (Some (228 # 10)) (Some 100);
        mk_sample 2 (Some 40) (Some 60) None (Some 0%Z) (Some (228 # 10)) (Some 150);
        mk_sample 4 (Some 40) (Some 60) None (Some 0%Z) (Some (228 # 10)) (Some 230)])
  == 130
  /\ json_co2_kg
       (summarize
          [mk_sample 0 (Some 40) (Some 60) None (Some 0%Z) (Some (228 # 10)) (Some 100);
           mk_sample 2 (Some 40) (Some 60) None (Some 0%Z) (Some (228 # 10)) (Some 150);
           mk_sample 4 (Some 40) (Some 60) None (Some 0%Z) (Some (228 # 10)) (Some 230)])
     == 91 # 1000.
Proof.
  destruct (summary_example_130_Wh
              (mk_sample 0 (Some 40) (Some 60) None (Some 0%Z) (Some (228 # 10)) (Some 100))
              (mk_sample 2 (Some 40) (Some 60) None (Some 0%Z) (Some (228 # 10)) (Some 150))
              (mk_sample 4 (Some 40) (Some 60) None (Some 0%Z) (Some (228 # 10)) (Some 230)))
    as (_ & _ & _ & _ & _ & He & Hc & _); try reflexivity.
  split; assumption.
Defined.

(** ** Ordering and the stores *)

Section OrderBy.

Context {A : Type} (key : A -> Z).

Lemma insert_by_perm (x : A) (l : list A) :
  Permutation (insert_by key x l) (x :: l).
Proof.
  induction l as [|y l IH]; cbn [insert_by]; [apply Permutation_refl|].
  destruct (key x <=? key y)%Z; [apply Permutation_refl|].
  apply Permutation_trans with (y :: x :: l); [|apply perm_swap].
  apply perm_skip. exact IH.
Qed.

Lemma order_by_perm (l : list A) : Permutation (order_by key l) l.
Proof.
  induction l as [|x l IH]; [apply Permutation_refl|].
  change (order_by key (x :: l)) with (insert_by key x (order_by key l)).
  apply Permutation_trans with (x :: order_by key l);
    [apply insert_by_perm | apply perm_skip; exact IH].
Qed.

Lemma insert_by_hdrel (x y : A) (l : list A) :
  (key_le key) y x -> HdRel (key_le key) y l -> HdRel (key_le key) y (insert_by key x l).
Proof.
  intros Hyx Hyl. destruct l as [|z l]; cbn [insert_by].
  - constructor. exact Hyx.
  - destruct (key x <=? key z)%Z; constructor;
      [exact Hyx | inversion Hyl; assumption].
Qed.

Lemma insert_by_sorted (x : A) (l : list A) :
  Sorted (key_le key) l -> Sorted (key_le key) (insert_by key x l).
Proof.
  induction 1 as [|y l Hs IH Hhd]; cbn [insert_by].
  - repeat constructor.
  - destruct (key x <=? key y)%Z eqn:E.
    + apply Z.leb_le in E. repeat constructor; assumption.
    + apply Z.leb_gt in E. constructor; [exact IH|].
      apply insert_by_hdrel; [unfold key_le; lia | exact Hhd].
Qed.

Lemma order_by_sorted (l : list A) : Sorted (key_le key) (order_by key l).
Proof.
  induction l as [|x l IH]; [constructor|].
  change (order_by key (x :: l)) with (insert_by key x (order_by key l)).
  apply insert_by_sorted. exact IH.
Qed.

(** A list that is already in order is left as it is. *)
Lemma order_by_of_sorted (l : list A) : Sorted (key_le key) l -> order_by key l = l.
Proof.
  induction 1 as [|x l Hs IH Hhd]; [reflexivity|].
  change (order_by key (x :: l)) with (insert_by key x (order_by key l)).
  rewrite IH. destruct Hhd as [|y l Hxy]; [reflexivity|].
  cbn [insert_by]. apply Z.leb_le in Hxy. rewrite Hxy. reflexivity.
Qed.

Lemma sorted_snoc (x : A) (l : list A) :
  Sorted (key_le key) l -> (forall y, In y l -> (key_le key) y x) ->
  Sorted (key_le key) (l ++ [x]).
Proof.
  induction 1 as [|y l Hs IH Hhd]; intros Hall; cbn [app].
  - repeat constructor.
  - constructor.
    + apply IH. intros z Hz. apply Hall. right. exact Hz.
    + destruct Hhd as [|z l Hyz]; cbn [app]; constructor;
        [apply Hall; left; reflexivity | exact Hyz].
Qed.

End OrderBy.

Lemma next_id_gt (t : table) (r : stored) : In r t -> (id r < next_id t)%Z.
Proof.
  unfold next_id. induction t as [|r' t IH]; intros Hin; [destruct Hin|].
  cbn [fold_right]. destruct Hin as [->|Hin]; [lia|].
  specialize (IH Hin). lia.
Qed.

Lemma insert_sorted (t : table) (s : sample) :
  Sorted (key_le id) t -> Sorted (key_le id) (insert t s).
Proof.
  intros Hs. unfold insert. apply sorted_snoc; [exact Hs|].
  intros y Hy. unfold key_le. cbn [id].
  pose proof (next_id_gt t y Hy). lia.
Qed.

(** Rows appended one after the other keep their ids in increasing order,
    and the table holds them in the order of the appends. *)
Lemma appended_table (samples : list sample) (t : table) :
  Sorted (key_le id) t ->
  Sorted (key_le id) (fold_left insert samples t)
  /\ map row (fold_left insert samples t) = map row t ++ samples.
Proof.
  revert t. induction samples as [|s samples IH]; intros t Hs; cbn [fold_left].
  - split; [exact Hs | rewrite app_nil_r; reflexivity].
  - destruct (IH (insert t s) (insert_sorted t s Hs)) as [H1 H2].
    split; [exact H1|]. rewrite H2. unfold insert.
    rewrite map_app, <- app_assoc. reflexivity.
Qed.

Lemma datetime_minus_minutes_ok (now_dt : Q) (minutes : Z) (since : Q) :
  datetime_minus_minutes now_dt minutes = Ok since ->
  since = now_dt - inject_Z (minutes * 60).
Proof.
  unfold datetime_minus_minutes.
  destruct (Z.abs (minutes * 60 / 86400) <=? TIMEDELTA_MAX_DAYS)%Z; [|discriminate].
  cbv zeta.
  destruct (Qle_bool 0 (now_dt - inject_Z (minutes * 60))
            && Qltb (now_dt - inject_Z (minutes * 60)) (inject_Z DATETIME_END));
    [|discriminate].
  intros H. injection H as <-. reflexivity.
Qed.

(** ** Fetching samples *)

Lemma fetch_samples_sim now_dt dbs mode minutes :
  mode <> "live"%string ->
  fetch_samples now_dt dbs mode minutes = Ok (map row (order_by id (DB_SIM dbs))).
Proof.
  intros Hm. unfold fetch_samples.
  destruct (String.eqb_spec mode "live"); [contradiction|reflexivity].
Qed.

Lemma fetch_samples_live now_dt dbs minutes :
  fetch_samples now_dt dbs "live" minutes
  = match datetime_minus_minutes now_dt minutes with
    | Ok since =>
        Ok (map row
              (order_by (fun r => col_timestamp (row r))
                 (filter (fun r => (isoformat_seconds since <=? col_timestamp (row r))%Z)
                    (DB_LIVE dbs))))
    | Raised e => Raised e
    end.
Proof. reflexivity. Qed.

Lemma sorted_map_row (l : list stored) :
  Sorted (key_le (fun r => col_timestamp (row r))) l ->
  Sorted (key_le col_timestamp) (map row l).
Proof.
  induction 1 as [|x l Hs IH Hhd]; cbn [map]; constructor; [exact IH|].
  destruct Hhd; cbn [map]; constructor. assumption.
Qed.

Lemma Ok_inj {A : Type} (a b : A) : Ok a = Ok b -> a = b.
Proof. intros H. injection H as ->. reflexivity. Qed.

(** A whole number of seconds is at or after a bound cut to whole
    seconds exactly when it is less than one second before the bound. *)
Lemma Qfloor_le_iff (x : Q) (z : Z) :
  (Qfloor x <= z)%Z <-> x < inject_Z z + 1.
Proof.
  split; intros H.
  - apply Qlt_le_trans with (inject_Z (Qfloor x + 1)); [apply Qlt_floor|].
    rewrite inject_Z_plus. change (inject_Z 1) with 1.
    assert (Hq : inject_Z (Qfloor x) <= inject_Z z) by (rewrite <- Zle_Qle; exact H).
    lra.
  - pose proof (Qfloor_le x) as Hf.
    assert (Hq : inject_Z (Qfloor x) < inject_Z (z + 1)).
    { rewrite inject_Z_plus. change (inject_Z 1) with 1. lra. }
    rewrite <- Zlt_Qlt in Hq. lia.
Qed.

Lemma window_test_explicit (x : Q) (z : Z) :
  (isoformat_seconds x <=? z)%Z = negb (Qle_bool (inject_Z z + 1) x).
Proof.
  unfold isoformat_seconds.
  destruct (Qle_bool (inject_Z z + 1) x) eqn:E; cbn [negb].
  - apply Qle_bool_iff in E. apply Z.leb_gt.
    destruct (Z.lt_ge_cases z (Qfloor x)) as [Hlt|Hge]; [exact Hlt|].
    apply Qfloor_le_iff in Hge. exfalso. lra.
  - apply Z.leb_le. apply Qfloor_le_iff.
    apply Qnot_le_lt. intros Hle. apply Qle_bool_iff in Hle. congruence.
Qed.

(** C8, as the code has it.  For every mode other than ["live"] and
    every [minutes], [fetch_samples] returns the whole fixed dataset
    ordered by row id, whatever [minutes] is; for a dataset written by
    successive inserts that is the order of insertion.  For mode
    ["live"] it returns, in ascending order of timestamp, exactly the
    stored samples whose timestamp is at or after [now - minutes] cut
    down to a whole second, that is, less than one second before
    [now - minutes]; it does return whenever that date exists. *)
Theorem fetch_samples_by_mode (now_dt : Q) (dbs : stores) :
  (forall mode minutes,
     mode <> "live"%string ->
     fetch_samples now_dt dbs mode minutes = Ok (map row (order_by id (DB_SIM dbs)))
     /\ fetch_samples now_dt dbs mode minutes = fetch_samples now_dt dbs mode 0)
  /\ Permutation (order_by id (DB_SIM dbs)) (DB_SIM dbs)
  /\ Sorted (key_le id) (order_by id (DB_SIM dbs))
  /\ (forall samples mode minutes,
        DB_SIM dbs = fold_left insert samples [] ->
        mode <> "live"%string ->
        fetch_samples now_dt dbs mode minutes = Ok samples)
  /\ (forall minutes rows,
        fetch_samples now_dt dbs "live" minutes = Ok rows ->
        Permutation rows
          (map row
             (filter
                (fun r =>
                   negb (Qle_bool (inject_Z (col_timestamp (row r)) + 1)
                           (now_dt - inject_Z (minutes * 60))))
                (DB_LIVE dbs)))
        /\ (forall s,
              In s rows <->
              In s (map row (DB_LIVE dbs))
              /\ now_dt - inject_Z (minutes * 60) < inject_Z (col_timestamp s) + 1)
        /\ (forall s, In s rows ->
              (Qfloor (now_dt - inject_Z (minutes * 60)) <= col_timestamp s)%Z)
        /\ Sorted (fun a b => (col_timestamp a <= col_timestamp b)%Z) rows)
  /\ (forall minutes,
        (Z.abs (minutes * 60 / 86400) <= TIMEDELTA_MAX_DAYS)%Z ->
        0 <= now_dt - inject_Z (minutes * 60) ->
        now_dt - inject_Z (minutes * 60) < inject_Z DATETIME_END ->
        exists rows, fetch_samples now_dt dbs "live" minutes = Ok rows).
Proof.
  split; [|split; [|split; [|split; [|split]]]].
  - intros mode minutes Hm.
    rewrite !(fetch_samples_sim now_dt dbs mode _ Hm). split; reflexivity.
  - apply order_by_perm.
  - apply order_by_sorted.
  - intros samples mode minutes Ht Hm.
    rewrite (fetch_samples_sim now_dt dbs mode minutes Hm), Ht.
    destruct (appended_table samples [] (Sorted_nil _)) as [Hs Hr].
    rewrite (order_by_of_sorted id _ Hs). rewrite Hr. reflexivity.
  - intros minutes rows. rewrite fetch_samples_live.
    destruct (datetime_minus_minutes now_dt minutes) as [since|e] eqn:E;
      [|discriminate].
    apply datetime_minus_minutes_ok in E. subst since.
    intros H. apply Ok_inj in H. subst rows.
    set (bound := now_dt - inject_Z (minutes * 60)).
    set (keep := fun r : stored =>
                   negb (Qle_bool (inject_Z (col_timestamp (row r)) + 1) bound)).
    assert (Hf : filter (fun r => (isoformat_seconds bound <=? col_timestamp (row r))%Z)
                   (DB_LIVE dbs)
                 = filter keep (DB_LIVE dbs)).
    { apply filter_ext. intros r. apply window_test_explicit. }
    rewrite Hf.
    assert (Hp : Permutation
                   (map row (order_by (fun r => col_timestamp (row r))
                               (filter keep (DB_LIVE dbs))))
                   (map row (filter keep (DB_LIVE dbs)))).
    { apply Permutation_map. apply order_by_perm. }
    assert (Hin : forall s,
               In s (map row (order_by (fun r => col_timestamp (row r))
                                (filter keep (DB_LIVE dbs))))
               <-> In s (map row (DB_LIVE dbs))
                   /\ bound < inject_Z (col_timestamp s) + 1).
    { intros s. split.
      - intros Hs. apply (Permutation_in _ Hp) in Hs.
        apply in_map_iff in Hs. destruct Hs as (r & <- & Hr).
        apply filter_In in Hr. destruct Hr as [Hr Hk].
        split; [apply in_map; exact Hr|].
        unfold keep in Hk. rewrite <- window_test_explicit in Hk.
        apply Z.leb_le in Hk. apply Qfloor_le_iff. exact Hk.
      - intros [Hs Hb]. apply (Permutation_in _ (Permutation_sym Hp)).
        apply in_map_iff in Hs. destruct Hs as (r & <- & Hr).
        apply in_map. apply filter_In. split; [exact Hr|].
        unfold keep. rewrite <- window_test_explicit.
        apply Z.leb_le. apply Qfloor_le_iff. exact Hb. }
    split; [exact Hp|]. split; [exact Hin|]. split.
    + intros s Hs. apply Hin in Hs. destruct Hs as [_ Hb].
      apply Qfloor_le_iff. exact Hb.
    + apply (sorted_map_row _ (order_by_sorted _ _)).
  - intros minutes Hd Hlo Hhi. rewrite fetch_samples_live.
    unfold datetime_minus_minutes.
    apply Z.leb_le in Hd. rewrite Hd. cbv zeta.
    apply Qle_bool_iff in Hlo. apply Qltb_lt in Hhi. rewrite Hlo, Hhi.
    cbn [andb]. eexists. reflexivity.
Qed.

Lemma fetch_samples_by_mode_witness :
  (* any other mode: the whole dataset, whatever [minutes] *)
  fetch_samples (6801 # 2) (mk_stores live_after_restart live_after_restart) "sim" 10
  = Ok (map row live_after_restart)
  (* live: the sample stamped 1000 is left out, those stamped 2800 and
     2860 are returned, in that order *)
  /\ fetch_samples (6801 # 2) (mk_stores live_after_restart live_after_restart)
       "live" 10
     = Ok (skipn 1 (map row live_after_restart))
  /\ (forall s,
        In s (skipn 1 (map row live_after_restart)) <->
        In s (map row live_after_restart)
        /\ (6801 # 2) - inject_Z (10 * 60) < inject_Z (col_timestamp s) + 1).
Proof.
  destruct (fetch_samples_by_mode (6801 # 2)
              (mk_stores live_after_restart live_after_restart))
    as (Hsim & _ & _ & _ & Hlive & _).
  split; [|split].
  - destruct (Hsim "sim"%string 10%Z) as [H _]; [discriminate|].
    rewrite H. reflexivity.
  - reflexivity.
  - destruct (Hlive 10%Z (skipn 1 (map row live_after_restart)) eq_refl)
      as (_ & Hin & _).
    exact Hin.
Defined.

(** The live query at half past a second, ten minutes back: the bound is
    2800.5 s, and the sample stamped 2800 s, before the bound, is
    returned. *)
Lemma live_query_returns_sample_before_bound :
  exists rows s,
    fetch_samples (6801 # 2) (mk_stores live_after_restart []) "live" 10 = Ok rows
    /\ In s rows
    /\ inject_Z (col_timestamp s) < (6801 # 2) - inject_Z (10 * 60).
Proof.
  eexists. eexists.
  split; [reflexivity|]. split; [left; reflexivity|]. reflexivity.
Qed.

(** ** Negative summaries *)

(** Before rounding: in a window of several samples whose last cumulative
    energy is below the first, [energy_Wh] and [co2] are negative. *)
Lemma energy_and_co2_negative (r r2 : sample) (rows : list sample) :
  or_0 (col_energy_Wh_cum (last (r2 :: rows) r)) < or_0 (col_energy_Wh_cum r) ->
  energy_Wh (r :: r2 :: rows) < 0 /\ co2 (r :: r2 :: rows) < 0.
Proof.
  intros H.
  assert (He : energy_Wh (r :: r2 :: rows) < 0).
  { unfold energy_Wh, energies.
    cbn [map List.length Nat.ltb Nat.leb hd].
    change (last (or_0 (col_energy_Wh_cum r)
                  :: or_0 (col_energy_Wh_cum r2)
                  :: map (fun r0 => or_0 (col_energy_Wh_cum r0)) rows) 0)
      with (last (map (fun r0 => or_0 (col_energy_Wh_cum r0)) (r2 :: rows)) 0).
    rewrite (last_map _ (r2 :: rows) r 0) by discriminate.
    lra. }
  split; [exact He|].
  unfold co2, energy_kWh, CO2_PER_KWH_KG.
  assert (Hk : energy_Wh (r :: r2 :: rows) / 1000 < 0).
  { apply Qlt_shift_div_r; [reflexivity | lra]. }
  lra.
Qed.

(** C10. The summary can be negative.  In a live store written by a
    run of the collector and, after a restart, by a second run, the
    window of the last ten minutes holds two samples, the last with less
    cumulative energy than the first; [api_summary] returns for it an
    [energy_Wh] and a [co2_kg] that are both strictly negative. *)
Theorem summary_can_be_negative :
  exists (rows : list sample) (first final : sample) (s : summary_result),
    fetch_samples 2900 (mk_stores live_after_restart []) "live" 10 = Ok rows
    /\ rows = [first; final]
    /\ or_0 (col_energy_Wh_cum final) < or_0 (col_energy_Wh_cum first)
    /\ api_summary 2900 (mk_stores live_after_restart [])
         (mk_args (Some "live"%string) (Some 10%Z)) = Ok s
    /\ json_energy_Wh s < 0
    /\ json_co2_kg s < 0.
Proof.
  eexists. eexists. eexists. eexists.
  split; [vm_compute; reflexivity|].
  split; [reflexivity|].
  split; [vm_compute; reflexivity|].
  split; [vm_compute; reflexivity|].
  split; vm_compute; reflexivity.
Qed.

(** * Further properties of the code *)

(** ** The power estimator *)

Lemma truthy_true (x : Q) : ~ x == 0 -> truthy x = true.
Proof.
  intros H. destruct (truthy x) eqn:E; [reflexivity|].
  apply truthy_false in E. contradiction.
Qed.

(** X1. Whatever the battery and the history, [estimate_power] returns
    a strictly positive number of watts when the CPU load and the
    brightness are not negative. *)
Theorem estimate_power_strictly_positive
  (now cpu_util : Q) (brightness : option Q) (batt : option sbattery)
  (last_batt_percent last_ts : option Q) :
  0 <= cpu_util -> (forall v, brightness = Some v -> 0 <= v) ->
  0 < estimate_power now cpu_util brightness batt last_batt_percent last_ts
  /\ truthy (estimate_power now cpu_util brightness batt last_batt_percent last_ts)
     = true.
Proof.
  intros Hc Hb.
  pose proof (estimate_power_pos now cpu_util brightness batt
                last_batt_percent last_ts Hc Hb) as Hp.
  split; [exact Hp|]. apply truthy_true. lra.
Qed.

Lemma estimate_power_strictly_positive_witness :
  0 < estimate_power 360 0 None (Some (mk_sbattery 78 None)) (Some 80) (Some 0).
Proof.
  apply (estimate_power_strictly_positive 360 0 None
           (Some (mk_sbattery 78 None)) (Some 80) (Some 0)).
  - apply Qle_refl.
  - intros v Hv. discriminate Hv.
Defined.

(** X2. For a CPU load and a brightness between 0 and 100 the linear
    estimate lies between 8 W and 41 W. *)
Theorem power_linear_range (cpu_util brightness : Q) :
  0 <= cpu_util <= 100 -> 0 <= brightness <= 100 ->
  8 <= power_linear cpu_util (Some brightness) <= 41.
Proof.
  intros [Hc1 Hc2] [Hb1 Hb2]. unfold power_linear.
  rewrite or_0_eq.
  unfold BASE_POWER_W, CPU_POWER_COEFF, BRIGHTNESS_POWER_COEFF.
  split; lra.
Qed.

Lemma power_linear_range_witness :
  8 <= power_linear 100 (Some 100) <= 41.
Proof.
  apply (power_linear_range 100 100); split; unfold Qle; simpl; lia.
Defined.

(** X3. When the battery branch is taken, the estimate does not depend
    on the CPU load or the brightness: any two calls with the same
    battery reading, history and clock return the same value. *)
Theorem battery_estimate_ignores_load
  (now : Q) (b : sbattery) (lbp lts : Q)
  (cpu_util cpu_util' : Q) (brightness brightness' : option Q) :
  power_plugged b <> Some true -> percent b < lbp -> 0 < (now - lts) / 3600 ->
  estimate_power now cpu_util' brightness' (Some b) (Some lbp) (Some lts)
  = estimate_power now cpu_util brightness (Some b) (Some lbp) (Some lts).
Proof.
  intros Hp Hlt Hdt.
  assert (Hb : forall c br,
             estimate_power now c br (Some b) (Some lbp) (Some lts)
             = battery_discharge_estimate now b lbp lts).
  { intros c br. unfold estimate_power, battery_based_power.
    apply plugged_false_iff in Hp. rewrite Hp. cbn [negb].
    apply Qltb_lt in Hlt. rewrite Hlt. cbv zeta.
    apply Qltb_lt in Hdt. rewrite Hdt. reflexivity. }
  rewrite !Hb. reflexivity.
Qed.

Lemma battery_estimate_ignores_load_witness :
  estimate_power 360 90 (Some 100) (Some (mk_sbattery 78 (Some false)))
    (Some 80) (Some 0)
  = estimate_power 360 0 None (Some (mk_sbattery 78 (Some false)))
      (Some 80) (Some 0).
Proof.
  apply (battery_estimate_ignores_load 360 (mk_sbattery 78 (Some false)) 80 0
           0 90 None (Some 100)); [discriminate | reflexivity | reflexivity].
Defined.

(** X4. With everything else equal, a higher CPU load never lowers the
    estimate. *)
Theorem estimate_power_monotone_in_cpu
  (now cpu1 cpu2 : Q) (brightness : option Q) (batt : option sbattery)
  (last_batt_percent last_ts : option Q) :
  cpu1 <= cpu2 ->
  estimate_power now cpu1 brightness batt last_batt_percent last_ts
  <= estimate_power now cpu2 brightness batt last_batt_percent last_ts.
Proof.
  intros H. unfold estimate_power.
  destruct (battery_based_power now batt last_batt_percent last_ts);
    [apply Qle_refl|].
  unfold power_linear, CPU_POWER_COEFF. lra.
Qed.

Lemma estimate_power_monotone_in_cpu_witness :
  estimate_power 360 10 (Some 60) None None None
  <= estimate_power 360 90 (Some 60) None None None.
Proof.
  apply (estimate_power_monotone_in_cpu 360 10 90 (Some 60) None None None).
  unfold Qle; simpl; lia.
Defined.

(** ** The collector *)

(** X5. The first iteration of a run has no previous sample: whatever
    the sensors report, it writes the linear estimate as [power_W] and 0
    as [energy_Wh_cum]. *)
Theorem first_iteration_is_linear_and_zero (avail : bool) (rd : readings) :
  col_power_W (fst (collector_iteration avail initial_state rd))
  = Some (power_linear (rd_cpu_percent rd)
            (Some (get_brightness avail (rd_sbc_brightness rd))))
  /\ col_energy_Wh_cum (fst (collector_iteration avail initial_state rd)) = Some 0
  /\ st_energy_cum_Wh (snd (collector_iteration avail initial_state rd)) = 0.
Proof.
  unfold collector_iteration, initial_state, estimate_power, battery_based_power.
  cbn [st_last_ts st_last_batt_percent st_energy_cum_Wh fst snd
       col_power_W col_energy_Wh_cum].
  split; [|split; reflexivity].
  destruct (rd_sensors_battery rd) as [b|]; [|reflexivity].
  destruct (negb (plugged b)); reflexivity.
Qed.

(** X6. The battery history does not survive an iteration without a
    battery: the iteration that follows one in which the sensor reported
    no battery writes the linear estimate, whatever its own battery
    reading is. *)
Theorem linear_after_missing_battery
  (avail : bool) (st : collector_state) (rd1 rd2 : readings) :
  rd_sensors_battery rd1 = None ->
  st_last_batt_percent (snd (collector_iteration avail st rd1)) = None
  /\ col_power_W
       (fst (collector_iteration avail (snd (collector_iteration avail st rd1)) rd2))
     = Some (power_linear (rd_cpu_percent rd2)
               (Some (get_brightness avail (rd_sbc_brightness rd2)))).
Proof.
  intros H1.
  assert (Hl : st_last_batt_percent (snd (collector_iteration avail st rd1)) = None).
  { unfold collector_iteration. cbn [snd st_last_batt_percent].
    rewrite H1. reflexivity. }
  split; [exact Hl|].
  set (st1 := snd (collector_iteration avail st rd1)) in *. clearbody st1.
  unfold collector_iteration. cbn [fst col_power_W]. rewrite Hl.
  unfold estimate_power, battery_based_power.
  destruct (rd_sensors_battery rd2) as [b|]; [|reflexivity].
  destruct (negb (plugged b)); reflexivity.
Qed.

Lemma linear_after_missing_battery_witness :
  col_power_W
    (fst (collector_iteration true
            (snd (collector_iteration true initial_state
                    (mk_readings 1000 40 None (Some 60) 1000 1001 false)))
            (mk_readings 1002 40 (Some (mk_sbattery 50 (Some false))) (Some 60)
               1002 1003 false)))
  = Some (power_linear 40 (Some 60)).
Proof.
  apply (linear_after_missing_battery true initial_state
           (mk_readings 1000 40 None (Some 60) 1000 1001 false)
           (mk_readings 1002 40 (Some (mk_sbattery 50 (Some false))) (Some 60)
              1002 1003 false)).
  reflexivity.
Defined.

Lemma last_cons_default {A : Type} (l : list A) (x d : A) :
  last (x :: l) d = last l x.
Proof.
  revert x d. induction l as [|y l IH]; intros x d; [reflexivity|].
  change (last (y :: l) d = last (y :: l) x).
  rewrite (IH y d), (IH y x). reflexivity.
Qed.

(** The table and the state that a run of the loop ends with. *)
Lemma collector_loop_cons_ok avail rd rds t st :
  rd_write_raises rd = false ->
  collector_loop avail (rd :: rds) t st
  = collector_loop avail rds
      (insert t (fst (collector_iteration avail st rd)))
      (snd (collector_iteration avail st rd)).
Proof.
  intros Hw. cbn [collector_loop].
  destruct (collector_iteration avail st rd) as [s st1].
  unfold persist. rewrite Hw. reflexivity.
Qed.

(** X8. A run of the loop is still looping after its readings exactly
    when none of its writes raised; it has then appended one row for each
    iteration, and its state holds the time of the last one. *)
Theorem collector_loops_iff_writes_succeed
  (avail : bool) (rds : list readings) (t : table) (st : collector_state) :
  (snd (collector_loop avail rds t st) = Looping
   <-> forall r, In r rds -> rd_write_raises r = false)
  /\ ((forall r, In r rds -> rd_write_raises r = false) ->
      exists news,
        fst (fst (collector_loop avail rds t st)) = t ++ news
        /\ List.length news = List.length rds
        /\ st_last_ts (snd (fst (collector_loop avail rds t st)))
           = last (map (fun r => Some (rd_time_now_ts r)) rds) (st_last_ts st)).
Proof.
  revert t st. induction rds as [|rd rds IH]; intros t st.
  - split.
    + split; [intros _ r []|reflexivity].
    + intros _. exists []. cbn. rewrite app_nil_r. repeat split.
  - destruct (rd_write_raises rd) eqn:Hw.
    + split.
      * cbn [collector_loop].
        destruct (collector_iteration avail st rd) as [s st1].
        unfold persist. rewrite Hw. cbn [snd].
        split; [discriminate|].
        intros H. specialize (H rd (or_introl eq_refl)). congruence.
      * intros H. specialize (H rd (or_introl eq_refl)). congruence.
    + rewrite (collector_loop_cons_ok avail rd rds t st Hw).
      destruct (IH (insert t (fst (collector_iteration avail st rd)))
                  (snd (collector_iteration avail st rd))) as [IH1 IH2].
      split.
      * rewrite IH1. split.
        -- intros H r [<-|Hin]; [exact Hw | apply H; exact Hin].
        -- intros H r Hin. apply H. right. exact Hin.
      * intros H.
        destruct IH2 as (news & Heq & Hlen & Hts).
        { intros r Hin. apply H. right. exact Hin. }
        eexists (_ :: news). split; [|split].
        -- rewrite Heq. unfold insert. rewrite <- app_assoc. reflexivity.
        -- cbn [List.length]. rewrite Hlen. reflexivity.
        -- rewrite Hts. rewrite collector_iteration_last_ts.
           cbn [map]. rewrite last_cons_default. reflexivity.
Qed.

Lemma collector_loops_iff_writes_succeed_witness :
  snd (collector_loop true first_run [] initial_state) = Looping.
Proof.
  apply (collector_loops_iff_writes_succeed true first_run [] initial_state).
  intros r [<-|[<-|[]]]; reflexivity.
Defined.

(** ** The stores *)

Lemma insert_ids_unique (t : table) (s : sample) :
  NoDup (map id t) -> NoDup (map id (insert t s)).
Proof.
  intros Hn. unfold insert. rewrite map_app. cbn [map id].
  apply NoDup_app; [exact Hn | repeat constructor; intros [] |].
  intros x Hin [<-|[]].
  apply in_map_iff in Hin. destruct Hin as (r & Hr & Hin).
  pose proof (next_id_gt t r Hin). lia.
Qed.

(** X9. The primary key stays a key: if the ids of the table are
    pairwise distinct before a run of the collector, they are pairwise
    distinct after it, however the run ends; the rows that were in the
    table are still there, in front and unchanged. *)
Theorem collector_keeps_ids_unique
  (avail : bool) (rds : list readings) (t : table) (st : collector_state) :
  NoDup (map id t) ->
  NoDup (map id (fst (fst (collector_loop avail rds t st))))
  /\ exists news, fst (fst (collector_loop avail rds t st)) = t ++ news.
Proof.
  revert t st. induction rds as [|rd rds IH]; intros t st Hn.
  - split; [exact Hn|]. exists []. cbn. rewrite app_nil_r. reflexivity.
  - destruct (rd_write_raises rd) eqn:Hw.
    + cbn [collector_loop].
      destruct (collector_iteration avail st rd) as [s st1].
      unfold persist. rewrite Hw. cbn [fst].
      split; [exact Hn|]. exists []. rewrite app_nil_r. reflexivity.
    + rewrite (collector_loop_cons_ok avail rd rds t st Hw).
      destruct (IH (insert t (fst (collector_iteration avail st rd)))
                  (snd (collector_iteration avail st rd))
                  (insert_ids_unique t _ Hn)) as (H1 & news & H2).
      split; [exact H1|].
      eexists (_ :: news). rewrite H2. unfold insert.
      rewrite <- app_assoc. reflexivity.
Qed.

Lemma collector_keeps_ids_unique_witness :
  NoDup (map id live_after_restart).
Proof.
  apply (collector_keeps_ids_unique true second_run
           (fst (fst (collector_thread true first_run []))) initial_state).
  apply (collector_keeps_ids_unique true first_run [] initial_state).
  constructor.
Defined.

(** ** Fetching samples *)

Lemma fetch_samples_live_in now_dt dbs minutes rows s :
  fetch_samples now_dt dbs "live" minutes = Ok rows ->
  (In s rows <->
   exists r, In r (DB_LIVE dbs) /\ row r = s
             /\ (isoformat_seconds (now_dt - inject_Z (minutes * 60))
                 <= col_timestamp s)%Z).
Proof.
  rewrite fetch_samples_live.
  destruct (datetime_minus_minutes now_dt minutes) as [since|e] eqn:E;
    [|discriminate].
  apply datetime_minus_minutes_ok in E. subst since.
  intros H. injection H as <-.
  rewrite in_map_iff. split.
  - intros (r & Hr & Hin).
    apply (Permutation_in _ (order_by_perm _ _)) in Hin.
    apply filter_In in Hin. destruct Hin as [Hin Hk].
    exists r. subst s. repeat split; [exact Hin | apply Z.leb_le; exact Hk].
  - intros (r & Hin & Hr & Hk). exists r. split; [exact Hr|].
    apply (Permutation_in _ (Permutation_sym (order_by_perm _ _))).
    apply filter_In. split; [exact Hin|]. apply Z.leb_le. subst s. exact Hk.
Qed.

(** X10. A longer window never loses a sample: every sample that the
    live query returns for [minutes1] is returned for any [minutes2] that
    is at least [minutes1], when both queries return. *)
Theorem live_window_grows_with_minutes
  (now_dt : Q) (dbs : stores) (minutes1 minutes2 : Z) (rows1 rows2 : list sample) :
  (minutes1 <= minutes2)%Z ->
  fetch_samples now_dt dbs "live" minutes1 = Ok rows1 ->
  fetch_samples now_dt dbs "live" minutes2 = Ok rows2 ->
  incl rows1 rows2.
Proof.
  intros Hm H1 H2 s Hs.
  apply (fetch_samples_live_in now_dt dbs minutes1 rows1 s H1) in Hs.
  apply (fetch_samples_live_in now_dt dbs minutes2 rows2 s H2).
  destruct Hs as (r & Hin & Hr & Hk). exists r.
  split; [exact Hin|]. split; [exact Hr|].
  apply Z.le_trans with (isoformat_seconds (now_dt - inject_Z (minutes1 * 60)));
    [|exact Hk].
  unfold isoformat_seconds. apply Qfloor_resp_le.
  assert (Hq : inject_Z (minutes1 * 60) <= inject_Z (minutes2 * 60)).
  { rewrite <- Zle_Qle. lia. }
  lra.
Qed.

Lemma live_window_grows_with_minutes_witness :
  exists rows1 rows2,
    fetch_samples 2900 (mk_stores live_after_restart []) "live" 1 = Ok rows1
    /\ fetch_samples 2900 (mk_stores live_after_restart []) "live" 10 = Ok rows2
    /\ incl rows1 rows2.
Proof.
  eexists. eexists.
  split; [reflexivity|]. split; [reflexivity|].
  apply (live_window_grows_with_minutes 2900 (mk_stores live_after_restart [])
           1 10); [lia | reflexivity | reflexivity].
Defined.

(** X11. A live window that would start before the first date that
    [datetime] can hold makes the subtraction raise [OverflowError]; no
    handler catches it, so [fetch_samples], [api_data] and [api_summary]
    all end with that exception, whatever the stores hold. *)
Theorem live_window_before_first_date_raises
  (now_dt : Q) (dbs : stores) (minutes : Z) :
  now_dt < inject_Z (minutes * 60) ->
  fetch_samples now_dt dbs "live" minutes = Raised OverflowError
  /\ api_data now_dt dbs (mk_args (Some "live"%string) (Some minutes))
     = Raised OverflowError
  /\ api_summary now_dt dbs (mk_args (Some "live"%string) (Some minutes))
     = Raised OverflowError.
Proof.
  intros H.
  assert (Hf : fetch_samples now_dt dbs "live" minutes = Raised OverflowError).
  { rewrite fetch_samples_live. unfold datetime_minus_minutes.
    destruct (Z.abs (minutes * 60 / 86400) <=? TIMEDELTA_MAX_DAYS)%Z;
      [|reflexivity].
    cbv zeta.
    destruct (Qle_bool 0 (now_dt - inject_Z (minutes * 60))) eqn:E;
      [|reflexivity].
    apply Qle_bool_iff in E. exfalso. lra. }
  split; [exact Hf|].
  unfold api_data, api_summary. cbn [args_get arg_mode arg_minutes].
  rewrite Hf. split; reflexivity.
Qed.

Lemma live_window_before_first_date_raises_witness :
  api_summary 2900 (mk_stores live_after_restart [])
    (mk_args (Some "live"%string) (Some 60%Z))
  = Raised OverflowError.
Proof.
  apply (live_window_before_first_date_raises 2900
           (mk_stores live_after_restart []) 60).
  reflexivity.
Defined.

Lemma key_le_filter_sorted {A : Type} (key : A -> Z) (keep : A -> bool) (l : list A) :
  Sorted (key_le key) l -> Sorted (key_le key) (filter keep l).
Proof.
  intros Hs.
  assert (Htrans : Relations_1.Transitive (key_le key)).
  { intros x y z Hxy Hyz. unfold key_le in *. lia. }
  apply Sorted_StronglySorted in Hs; [|exact Htrans].
  apply StronglySorted_Sorted.
  induction Hs as [|x l Hs IH Hall]; cbn [filter]; [constructor|].
  destruct (keep x); [|exact IH].
  constructor; [exact IH|].
  apply Forall_forall. intros y Hy. apply filter_In in Hy.
  rewrite Forall_forall in Hall. apply Hall. apply Hy.
Qed.

(** X12. When the live table holds its rows in non-decreasing order of
    timestamp, the live query returns the rows of the window in the order
    of the table: the rows of the table that are in the window, none
    moved. *)
Theorem live_query_keeps_insertion_order
  (now_dt : Q) (dbs : stores) (minutes : Z) (rows : list sample) :
  Sorted (key_le (fun r => col_timestamp (row r))) (DB_LIVE dbs) ->
  fetch_samples now_dt dbs "live" minutes = Ok rows ->
  rows
  = map row
      (filter
         (fun r =>
            (isoformat_seconds (now_dt - inject_Z (minutes * 60))
             <=? col_timestamp (row r))%Z)
         (DB_LIVE dbs)).
Proof.
  intros Hs. rewrite fetch_samples_live.
  destruct (datetime_minus_minutes now_dt minutes) as [since|e] eqn:E;
    [|discriminate].
  apply datetime_minus_minutes_ok in E. subst since.
  intros H. injection H as <-.
  rewrite order_by_of_sorted; [reflexivity|].
  apply key_le_filter_sorted. exact Hs.
Qed.

Lemma live_query_keeps_insertion_order_witness :
  fetch_samples 2900 (mk_stores live_after_restart []) "live" 10
  = Ok (map row
          (filter
             (fun r =>
                (isoformat_seconds (2900 - inject_Z (10 * 60))
                 <=? col_timestamp (row r))%Z)
             live_after_restart)).
Proof.
  assert (H : exists rows,
             fetch_samples 2900 (mk_stores live_after_restart []) "live" 10
             = Ok rows) by (eexists; reflexivity).
  destruct H as [rows H]. rewrite H. f_equal.
  apply (live_query_keeps_insertion_order 2900
           (mk_stores live_after_restart []) 10 rows); [|exact H].
  repeat constructor; unfold key_le; cbn; lia.
Defined.

Lemma collector_timestamps_sorted_aux
  (avail : bool) (rds : list readings) (st : collector_state) :
  StronglySorted Qle (map rd_datetime_now rds) ->
  Sorted (key_le (fun r => col_timestamp (row r)))
    (fst (fst (collector_loop avail rds [] st))).
Proof.
  intros Hs.
  assert (H : forall t st,
             exists news,
               fst (fst (collector_loop avail rds t st)) = t ++ news
               /\ Sorted (key_le (fun r => col_timestamp (row r))) news
               /\ forall r, In r news ->
                    exists rd, In rd rds
                      /\ col_timestamp (row r)
                         = isoformat_seconds (rd_datetime_now rd)).
  { clear st. induction rds as [|rd rds IH]; intros t st.
    - exists []. cbn. rewrite app_nil_r.
      split; [reflexivity|]. split; [constructor | intros r []].
    - cbn [map] in Hs. inversion Hs as [|? ? Hs' Hall]; subst.
      destruct (rd_write_raises rd) eqn:Hw.
      + exists []. cbn [collector_loop].
        destruct (collector_iteration avail st rd) as [s st1].
        unfold persist. rewrite Hw. cbn [fst]. rewrite app_nil_r.
        split; [reflexivity|]. split; [constructor | intros r []].
      + rewrite (collector_loop_cons_ok avail rd rds t st Hw).
        destruct (IH Hs' (insert t (fst (collector_iteration avail st rd)))
                    (snd (collector_iteration avail st rd)))
          as (news & Heq & Hsorted & Hfrom).
        exists (mk_stored (next_id t) (fst (collector_iteration avail st rd))
                :: news).
        split; [rewrite Heq; unfold insert; rewrite <- app_assoc; reflexivity|].
        split.
        * constructor; [exact Hsorted|].
          destruct news as [|r news]; constructor.
          destruct (Hfrom r (or_introl eq_refl)) as (rd' & Hin & Hts).
          unfold key_le. cbn [row]. rewrite Hts.
          change (col_timestamp (fst (collector_iteration avail st rd)))
            with (isoformat_seconds (rd_datetime_now rd)).
          unfold isoformat_seconds. apply Qfloor_resp_le.
          rewrite Forall_forall in Hall. apply Hall.
          apply in_map. exact Hin.
        * intros r [<-|Hin].
          -- exists rd. split; [left; reflexivity | reflexivity].
          -- destruct (Hfrom r Hin) as (rd' & Hin' & Hts).
             exists rd'. split; [right; exact Hin' | exact Hts]. }
  destruct (H [] st) as (news & Heq & Hsorted & _).
  rewrite Heq. exact Hsorted.
Qed.

(** X13. A run of the collector whose [datetime.now()] never goes back,
    started on an empty table, leaves the table in non-decreasing order of
    timestamp. *)
Theorem collector_timestamps_sorted
  (avail : bool) (rds : list readings) (st : collector_state) :
  StronglySorted Qle (map rd_datetime_now rds) ->
  Sorted (key_le (fun r => col_timestamp (row r)))
    (fst (fst (collector_loop avail rds [] st))).
Proof.
  intros Hs. apply collector_timestamps_sorted_aux. exact Hs.
Qed.

Lemma collector_timestamps_sorted_witness :
  Sorted (key_le (fun r => col_timestamp (row r)))
    (fst (fst (collector_loop true first_run [] initial_state))).
Proof.
  apply (collector_timestamps_sorted true first_run initial_state).
  repeat constructor. unfold Qle; simpl; lia.
Defined.

(** ** The request handlers *)

(** X14. [api_data] numbers the samples 1, 2, ..., n in the order that
    [fetch_samples] returned them, and copies their cumulative energy and
    power unchanged: the list has one element for each sample. *)
Theorem api_data_indexes_from_one
  (now_dt : Q) (dbs : stores) (args : request_args) (rows : list sample) :
  fetch_samples now_dt dbs (args_get (arg_mode args) "sim"%string)
    (args_get (arg_minutes args) 60%Z) = Ok rows ->
  exists data,
    api_data now_dt dbs args = Ok data
    /\ map json_index data = map Z.of_nat (seq 1 (List.length rows))
    /\ map json_energy_Wh_cum data = map col_energy_Wh_cum rows
    /\ map json_power_W data = map col_power_W rows.
Proof.
  intros H. unfold api_data. rewrite H. cbn [bind].
  eexists. split; [reflexivity|].
  assert (Hg : forall (n : nat) l,
             map json_index (data_points (Z.of_nat n) l)
             = map Z.of_nat (seq (S n) (List.length l))
             /\ map json_energy_Wh_cum (data_points (Z.of_nat n) l)
                = map col_energy_Wh_cum l
             /\ map json_power_W (data_points (Z.of_nat n) l)
                = map col_power_W l).
  { intros n l. revert n. induction l as [|r l IH]; intros n.
    - repeat split.
    - cbn [data_points map List.length seq json_index json_energy_Wh_cum
           json_power_W].
      replace (Z.of_nat n + 1)%Z with (Z.of_nat (S n)) by lia.
      destruct (IH (S n)) as (H1 & H2 & H3).
      rewrite H1, H2, H3. repeat split. }
  apply (Hg 0%nat rows).
Qed.

Lemma api_data_indexes_from_one_witness :
  exists data,
    api_data 2900 (mk_stores [] live_after_restart) (mk_args None None) = Ok data
    /\ map json_index data = [1; 2; 3]%Z.
Proof.
  destruct (api_data_indexes_from_one 2900 (mk_stores [] live_after_restart)
              (mk_args None None) (map row live_after_restart) eq_refl)
    as (data & Hd & Hi & _).
  exists data. split; [exact Hd | exact Hi].
Defined.

(** ** The pause *)

(** X16. The pause is never negative, so [time.sleep] is never given a
    negative argument; when the body took at most the sampling interval
    the body and the pause together last exactly the interval, and when
    it took longer there is no pause. *)
Theorem sleep_duration_keeps_period (start finish : Q) :
  0 <= sleep_duration start finish
  /\ (finish - start <= SAMPLE_INTERVAL_SECONDS ->
      (finish - start) + sleep_duration start finish == SAMPLE_INTERVAL_SECONDS)
  /\ (SAMPLE_INTERVAL_SECONDS <= finish - start ->
      sleep_duration start finish == 0).
Proof.
  unfold sleep_duration. cbv zeta.
  destruct (Qltb 0 (SAMPLE_INTERVAL_SECONDS - (finish - start))) eqn:E.
  - apply Qltb_lt in E. repeat split; intros; lra.
  - apply Qltb_nlt in E. repeat split; intros; lra.
Qed.

Lemma sleep_duration_keeps_period_witness :
  (1000 + (1 # 2) - 1000) + sleep_duration 1000 (1000 + (1 # 2))
  == SAMPLE_INTERVAL_SECONDS.
Proof.
  apply (sleep_duration_keeps_period 1000 (1000 + (1 # 2))).
  unfold Qle; simpl; lia.
Defined.

(** ** The summary *)

(** X18. For every non-empty window each field that [api_summary]
    returns is its exact value rounded to the display precision: a whole
    number of hundredths (energy, power), tenths (CPU) or thousandths
    (CO2), at most half such a unit away from the exact value. *)
Theorem summary_fields_are_rounded (r : sample) (rows : list sample) :
  rounded_to 2 (energy_Wh (r :: rows)) (json_energy_Wh (summarize (r :: rows)))
  /\ rounded_to 2 (avg_power (r :: rows)) (json_avg_power_W (summarize (r :: rows)))
  /\ rounded_to 1 (avg_cpu (r :: rows)) (json_avg_cpu (summarize (r :: rows)))
  /\ rounded_to 3 (co2 (r :: rows)) (json_co2_kg (summarize (r :: rows))).
Proof.
  cbn [summarize json_energy_Wh json_avg_power_W json_avg_cpu json_co2_kg].
  repeat split; apply py_round_rounded_to.
Qed.

Lemma py_round_nonneg (x : Q) (ndigits : nat) : 0 <= x -> 0 <= py_round x ndigits.
Proof.
  intros Hx. unfold py_round.
  pose proof (scale_pos ndigits) as Hs.
  set (s := inject_Z (10 ^ Z.of_nat ndigits)) in *.
  apply Qle_shift_div_l; [exact Hs|]. rewrite Qmult_0_l.
  change 0 with (inject_Z 0). rewrite <- Zle_Qle.
  assert (Hy : 0 <= x * s) by (apply Qmult_le_0_compat; lra).
  assert (Hf : (0 <= Qfloor (x * s))%Z).
  { change 0%Z with (Qfloor 0). apply Qfloor_resp_le. exact Hy. }
  unfold round_half_even.
  destruct (Qcompare (x * s - inject_Z (Qfloor (x * s))) (1 # 2));
    [destruct (Z.even (Qfloor (x * s)))| |]; lia.
Qed.

Lemma energy_le_transitive : Relations_1.Transitive energy_le.
Proof.
  intros a b c (e1 & e2 & Ha & Hb & H12) (e2' & e3 & Hb' & Hc & H23).
  rewrite Hb in Hb'. injection Hb' as <-.
  exists e1, e3. repeat split; try assumption.
  apply Qle_trans with e2; assumption.
Qed.

(** In a window whose cumulative energies are written, not negative
    and in non-decreasing order, [energy_Wh] is not negative. *)
Lemma energy_Wh_nonneg_of_sorted (rows : list sample) :
  Sorted energy_le rows ->
  Forall (fun s => exists e, col_energy_Wh_cum s = Some e /\ 0 <= e) rows ->
  0 <= energy_Wh rows.
Proof.
  intros Hs Hall.
  destruct rows as [|r rows]; [apply Qle_refl|].
  destruct rows as [|r2 rows].
  - inversion Hall as [|? ? (e & He & Hpos) ?]; subst.
    unfold energy_Wh, energies. cbn [map List.length Nat.ltb Nat.leb last].
    rewrite He, or_0_eq. exact Hpos.
  - apply Sorted_StronglySorted in Hs; [|exact energy_le_transitive].
    inversion Hs as [|? ? _ Hfrom]; subst.
    assert (Hin : In (last (r2 :: rows) r) (r2 :: rows)).
    { clear. revert r2. induction rows as [|x l IH]; intros r2.
      - left. reflexivity.
      - right. apply (IH x). }
    rewrite Forall_forall in Hfrom.
    destruct (Hfrom _ Hin) as (e1 & e2 & H1 & H2 & Hle).
    unfold energy_Wh, energies. cbn [map List.length Nat.ltb Nat.leb hd].
    change (last (or_0 (col_energy_Wh_cum r)
                  :: or_0 (col_energy_Wh_cum r2)
                  :: map (fun r0 => or_0 (col_energy_Wh_cum r0)) rows) 0)
      with (last (map (fun r0 => or_0 (col_energy_Wh_cum r0)) (r2 :: rows)) 0).
    rewrite (last_map _ (r2 :: rows) r 0) by discriminate.
    rewrite H1, H2, !or_0_eq. lra.
Qed.

(** X19. A summary over the samples of a single run is never negative.
    When a run of the collector starts on an empty table with readings
    that are not negative and a clock that does not go back, the summary
    of the rows it wrote has [energy_Wh] and [co2] that are not negative,
    before and after rounding. *)
Theorem single_run_summary_non_negative (avail : bool) (rds : list readings) :
  steady None rds ->
  0 <= energy_Wh (map row (fst (fst (collector_thread avail rds []))))
  /\ 0 <= co2 (map row (fst (fst (collector_thread avail rds []))))
  /\ 0 <= json_energy_Wh
            (summarize (map row (fst (fst (collector_thread avail rds [])))))
  /\ 0 <= json_co2_kg
            (summarize (map row (fst (fst (collector_thread avail rds []))))).
Proof.
  intros Hst.
  destruct (collector_loop_energy_sorted avail rds [] initial_state Hst)
    as (news & Heq & Hall & Hsorted).
  unfold collector_thread. rewrite Heq. cbn [app].
  assert (He : 0 <= energy_Wh (map row news)).
  { apply energy_Wh_nonneg_of_sorted; [exact Hsorted|].
    apply Forall_forall. intros s Hs. apply in_map_iff in Hs.
    destruct Hs as (r & <- & Hr).
    rewrite Forall_forall in Hall. exact (Hall r Hr). }
  assert (Hc : 0 <= co2 (map row news)).
  { unfold co2, energy_kWh, CO2_PER_KWH_KG.
    assert (Hk : 0 <= energy_Wh (map row news) / 1000).
    { apply Qle_shift_div_l; [reflexivity | lra]. }
    lra. }
  split; [exact He|]. split; [exact Hc|].
  unfold summarize.
  destruct (map row news) as [|s l] eqn:E.
  - cbn [json_energy_Wh json_co2_kg]. split; apply Qle_refl.
  - cbn [json_energy_Wh json_co2_kg].
    split; apply py_round_nonneg; assumption.
Qed.

Lemma single_run_summary_non_negative_witness :
  0 <= json_energy_Wh
         (summarize (map row (fst (fst (collector_thread true first_run []))))).
Proof.
  apply (single_run_summary_non_negative true first_run).
  cbn [steady first_run rd_cpu_percent rd_sbc_brightness rd_time_now_ts].
  split; [unfold Qle; simpl; lia|].
  split; [intros v Hv; injection Hv as <-; unfold Qle; simpl; lia|].
  split; [intros lts Hl; discriminate|].
  split; [unfold Qle; simpl; lia|].
  split; [intros v Hv; injection Hv as <-; unfold Qle; simpl; lia|].
  split; [intros lts Hl; injection Hl as <-; unfold Qle; simpl; lia|].
  exact I.
Defined.

(** ** From the collector to the live query *)

Lemma map_filter_comm {A B : Type} (g : A -> B) (f : B -> bool) (l : list A) :
  map g (filter (fun x => f (g x)) l) = filter f (map g l).
Proof.
  induction l as [|x l IH]; [reflexivity|].
  cbn [filter map]. destruct (f (g x)); cbn [map]; rewrite IH; reflexivity.
Qed.

(** X20. What the collector writes is what the live query reads, in the
    same order.  After a run started on an empty table with a
    [datetime.now()] that never goes back, a live query returns the rows
    of that table whose timestamp is in the window, in the order the
    collector wrote them. *)
Theorem live_query_after_run
  (avail : bool) (rds : list readings) (now_dt : Q) (sim : table)
  (minutes : Z) (rows : list sample) :
  StronglySorted Qle (map rd_datetime_now rds) ->
  fetch_samples now_dt
    (mk_stores (fst (fst (collector_thread avail rds []))) sim) "live" minutes
  = Ok rows ->
  rows
  = filter
      (fun s =>
         (isoformat_seconds (now_dt - inject_Z (minutes * 60)) <=? col_timestamp s)%Z)
      (map row (fst (fst (collector_thread avail rds [])))).
Proof.
  intros Hclock Hfetch.
  pose proof (collector_timestamps_sorted_aux avail rds initial_state Hclock) as Hs.
  rewrite fetch_samples_live in Hfetch. cbn [DB_LIVE] in Hfetch.
  destruct (datetime_minus_minutes now_dt minutes) as [since|e] eqn:E;
    [|discriminate].
  apply datetime_minus_minutes_ok in E. subst since.
  injection Hfetch as <-.
  rewrite order_by_of_sorted by (apply key_le_filter_sorted; exact Hs).
  exact (map_filter_comm row
           (fun s =>
              (isoformat_seconds (now_dt - inject_Z (minutes * 60))
               <=? col_timestamp s)%Z) _).
Qed.

Lemma live_query_after_run_witness :
  fetch_samples 2900
    (mk_stores (fst (fst (collector_thread true first_run []))) []) "live" 10
  = Ok (filter
          (fun s => (isoformat_seconds (2900 - inject_Z (10 * 60)) <=? col_timestamp s)%Z)
          (map row (fst (fst (collector_thread true first_run []))))).
Proof.
  assert (H : exists rows,
             fetch_samples 2900
               (mk_stores (fst (fst (collector_thread true first_run []))) [])
               "live" 10 = Ok rows) by (eexists; reflexivity).
  destruct H as [rows H]. rewrite H. f_equal.
  apply (live_query_after_run true first_run 2900 [] 10 rows); [|exact H].
  repeat constructor. unfold Qle; simpl; lia.
Defined.
